(** * The single-scheme Data Matrix encoder dispatcher (dmtxencodesingle.c)

    A shallow embedding of the scheme dispatcher of libdmtx
    ([EncodeSingleScheme2], [EncodeNextChunk], [EncodeChangeScheme]) and of
    the two randomization functions ([Randomize253State2],
    [Randomize255State2]), followed by the properties proved about them.

    Conventions.
    - A C [int] is a [Z]; every arithmetic operation of the source is written
      with its 32-bit two's complement wrap-around ([int_add], [int_mul], ...).
    - A [DmtxByte] is a [Z] in 0..255; the conversion of an [int] to a
      [DmtxByte] is [to_DmtxByte].
    - A [void] function that updates [*stream] is a function from streams to
      streams; assertions are enabled, and a failed [assert] is the outcome
      [AssertFailed].
    - The scheme-specific encoders and the stream primitives live in sibling
      translation units; the dispatcher is embedded over an arbitrary
      implementation of them (the classes [Emitters] and [SubEncoders]). *)

From Stdlib Require Import ZArith List Lia Bool.
Import ListNotations.
Local Open Scope Z_scope.

(* ===================================================================== *)
(** * Part I: definitions                                                  *)
(* ===================================================================== *)

(** ** C integers *)

Definition int_min : Z := -2147483648.
Definition int_max : Z := 2147483647.

(** Reduction of a mathematical integer into the range of a 32-bit [int]. *)
Definition int_wrap (z : Z) : Z := (z + 2147483648) mod 4294967296 - 2147483648.

Definition int_add (a b : Z) : Z := int_wrap (a + b).
Definition int_sub (a b : Z) : Z := int_wrap (a - b).
Definition int_mul (a b : Z) : Z := int_wrap (a * b).

(** The C operator [%] truncates towards zero: the remainder has the sign of
    the dividend. *)
Definition int_rem (a b : Z) : Z := Z.rem a b.

(** Conversion to [DmtxByte] (an [unsigned char]). *)
Definition to_DmtxByte (z : Z) : Z := z mod 256.

(** What running a piece of the program yields: a value, a failed [assert]
    (the program is aborted), or an exhausted iteration budget (only the
    [while] loop of [EncodeSingleScheme2] can produce it). *)
Inductive outcome (A : Type) : Type :=
| Done (a : A)
| AssertFailed
| OutOfFuel.

Arguments Done {A} a.
Arguments AssertFailed {A}.
Arguments OutOfFuel {A}.

(** ** The randomization functions *)

(** The value of [tmp] in [Randomize253State2] when the [assert] is reached,
    that is after the conditional subtraction of 254 (source lines 243-246). *)
Definition Randomize253State2_tmp (cwValue cwPosition : Z) : Z :=
  let pseudoRandom := int_add (int_rem (int_mul 149 cwPosition) 253) 1 in
  let tmp := int_add cwValue pseudoRandom in
  if tmp >? 254 then int_sub tmp 254 else tmp.

Definition Randomize253State2 (cwValue cwPosition : Z) : outcome Z :=
  let tmp := Randomize253State2_tmp cwValue cwPosition in
  if (tmp >=? 0) && (tmp <? 256) then Done (to_DmtxByte tmp) else AssertFailed.

Definition Randomize255State2 (value position : Z) : Z :=
  let pseudoRandom := int_add (int_rem (int_mul 149 position) 255) 1 in
  let tmp := int_add value pseudoRandom in
  to_DmtxByte (if tmp <=? 255 then tmp else int_sub tmp 256).

(** The formulas of the specification (sections 4.5 and 4.6), over the
    mathematical integers. *)
Definition R253_spec (v p : Z) : Z := (v + ((149 * p) mod 253) + 1) mod 254.


(** ** The encode stream *)

(** Modelled from the spec: the enumeration [DmtxScheme] is declared in
    dmtx.h, which is not under src/. The six schemes of section 3, and the two
    automatic selections of the library's enumeration (the fast and best-fit
    encoders that section 1 leaves out of scope): these two are the schemes
    the dispatcher does not recognize (section 7). *)
Inductive DmtxScheme : Type :=
| DmtxSchemeAutoFast
| DmtxSchemeAutoBest
| DmtxSchemeAscii
| DmtxSchemeC40
| DmtxSchemeText
| DmtxSchemeX12
| DmtxSchemeEdifact
| DmtxSchemeBase256.

(** Modelled from the spec: [DmtxStatus] is declared in dmtx.h, not under
    src/; the four statuses of section 3. *)
Inductive DmtxStatus : Type :=
| DmtxStatusEncoding
| DmtxStatusComplete
| DmtxStatusInvalid
| DmtxStatusFatal.

(** Modelled from the spec: [DmtxPassFail] is declared in dmtx.h, not under
    src/; success or failure of [encode_single] (section 4.1). *)
Inductive DmtxPassFail : Type :=
| DmtxFail
| DmtxPass.

Definition scheme_eqb (a b : DmtxScheme) : bool :=
  match a, b with
  | DmtxSchemeAutoFast, DmtxSchemeAutoFast
  | DmtxSchemeAutoBest, DmtxSchemeAutoBest
  | DmtxSchemeAscii, DmtxSchemeAscii
  | DmtxSchemeC40, DmtxSchemeC40
  | DmtxSchemeText, DmtxSchemeText
  | DmtxSchemeX12, DmtxSchemeX12
  | DmtxSchemeEdifact, DmtxSchemeEdifact
  | DmtxSchemeBase256, DmtxSchemeBase256 => true
  | _, _ => false
  end.

Definition status_eqb (a b : DmtxStatus) : bool :=
  match a, b with
  | DmtxStatusEncoding, DmtxStatusEncoding
  | DmtxStatusComplete, DmtxStatusComplete
  | DmtxStatusInvalid, DmtxStatusInvalid
  | DmtxStatusFatal, DmtxStatusFatal => true
  | _, _ => false
  end.

(** The six schemes the dispatcher has a case for. *)
Definition recognized (s : DmtxScheme) : bool :=
  match s with
  | DmtxSchemeAutoFast | DmtxSchemeAutoBest => false
  | _ => true
  end.

Definition IsCTX (s : DmtxScheme) : bool :=
  match s with
  | DmtxSchemeC40 | DmtxSchemeText | DmtxSchemeX12 => true
  | _ => false
  end.

(** Modelled from the spec: [DmtxEncodeStream] is declared in dmtx.h, not
    under src/; the fields of the data model of section 3. [input] and
    [output] are the byte lists the stream points to; [inputNext] is the read
    index of the input cursor; [reason] is the index of the message recorded
    with a status other than Encoding. *)
Record DmtxEncodeStream : Type := mkStream {
  currentScheme : DmtxScheme;
  inputNext : Z;
  outputChainValueCount : Z;
  outputChainWordCount : Z;
  reason : option Z;
  status : DmtxStatus;
  input : list Z;
  output : list Z
}.

Definition set_currentScheme (v : DmtxScheme) (s : DmtxEncodeStream) : DmtxEncodeStream :=
  mkStream v (inputNext s) (outputChainValueCount s) (outputChainWordCount s)
           (reason s) (status s) (input s) (output s).

Definition set_inputNext (v : Z) (s : DmtxEncodeStream) : DmtxEncodeStream :=
  mkStream (currentScheme s) v (outputChainValueCount s) (outputChainWordCount s)
           (reason s) (status s) (input s) (output s).

Definition set_outputChainValueCount (v : Z) (s : DmtxEncodeStream) : DmtxEncodeStream :=
  mkStream (currentScheme s) (inputNext s) v (outputChainWordCount s)
           (reason s) (status s) (input s) (output s).

Definition set_outputChainWordCount (v : Z) (s : DmtxEncodeStream) : DmtxEncodeStream :=
  mkStream (currentScheme s) (inputNext s) (outputChainValueCount s) v
           (reason s) (status s) (input s) (output s).

Definition set_status (v : DmtxStatus) (r : option Z) (s : DmtxEncodeStream) : DmtxEncodeStream :=
  mkStream (currentScheme s) (inputNext s) (outputChainValueCount s) (outputChainWordCount s)
           r v (input s) (output s).

Definition set_output (v : list Z) (s : DmtxEncodeStream) : DmtxEncodeStream :=
  mkStream (currentScheme s) (inputNext s) (outputChainValueCount s) (outputChainWordCount s)
           (reason s) (status s) (input s) v.

(** Modelled from the spec: [StreamInit] is defined in dmtxencodestream.c,
    not under src/. Section 3: a fresh stream is in scheme ASCII and status
    Encoding, with nothing read and nothing written. *)
Definition StreamInit (inp : list Z) : DmtxEncodeStream :=
  mkStream DmtxSchemeAscii 0 0 0 None DmtxStatusEncoding inp [].

(** Modelled from the spec: [StreamMarkFatal] is defined in
    dmtxencodestream.c, which is not among the files under src/. Section 3:
    [reason] is a code set alongside any status other than Encoding;
    section 7: Fatal is the status of an internal error. *)
Definition StreamMarkFatal (stream : DmtxEncodeStream) (reasonIdx : Z) : DmtxEncodeStream :=
  set_status DmtxStatusFatal (Some reasonIdx) stream.

(** Modelled from the spec: [StreamMarkInvalid] is defined in
    dmtxencodestream.c, not under src/. Section 7: Invalid is the status of a
    request that cannot be satisfied. *)
Definition StreamMarkInvalid (stream : DmtxEncodeStream) (reasonIdx : Z) : DmtxEncodeStream :=
  set_status DmtxStatusInvalid (Some reasonIdx) stream.

(** Modelled from the spec: [StreamMarkComplete] is defined in
    dmtxencodestream.c, not under src/. Section 3: the status leaves Encoding
    one way only, so a stream that is no longer Encoding is left as it is. *)
Definition StreamMarkComplete (stream : DmtxEncodeStream) : DmtxEncodeStream :=
  if status_eqb (status stream) DmtxStatusEncoding
  then set_status DmtxStatusComplete (reason stream) stream
  else stream.

(** Modelled from the spec: [StreamInputHasNext] is defined in
    dmtxencodestream.c, not under src/. Section 3: the input cursor is a byte
    sequence plus a read index and exposes [has_next]. *)
Definition StreamInputHasNext (stream : DmtxEncodeStream) : bool :=
  inputNext stream <? Z.of_nat (length (input stream)).

(** ** Constants of dmtx.h *)

(** dmtx.h and dmtxstatic.h are not under src/: the reserved codewords are
    those of section 6 of the specification (bit-exact values). *)

(** Modelled from the spec: the sentinel of the symbol oracle (section 4.7),
    a size index no symbol has. *)
Definition DmtxUndefined : Z := -1.

(** Modelled from the spec: section 6, Pad = 129. *)
Definition DmtxValueAsciiPad : Z := 129.

(** Modelled from the spec: section 6, C40Latch = 230. *)
Definition DmtxValueC40Latch : Z := 230.

(** Modelled from the spec: section 6, Base256Latch = 231. *)
Definition DmtxValueBase256Latch : Z := 231.

(** Modelled from the spec: section 6, UpperShift = 235. *)
Definition DmtxValueAsciiUpperShift : Z := 235.

(** Modelled from the spec: section 6, X12Latch = 238. *)
Definition DmtxValueX12Latch : Z := 238.

(** Modelled from the spec: section 6, TextLatch = 239. *)
Definition DmtxValueTextLatch : Z := 239.

(** Modelled from the spec: section 6, EdifactLatch = 240. *)
Definition DmtxValueEdifactLatch : Z := 240.

(** Modelled from the spec: section 6, CtxUnlatch = 254. *)
Definition DmtxValueCTXUnlatch : Z := 254.

(** Modelled from the spec: section 6, EdifactUnlatch = 31. *)
Definition DmtxValueEdifactUnlatch : Z := 31.

(** Modelled from the spec: the explicit unlatch of section 4.1;
    [unlatchType] is an [int] in the source and only its equality with this
    value is tested. *)
Definition DmtxUnlatchExplicit : Z := 0.

(** Modelled from the spec: the implicit unlatch of the end-of-data rules
    (section 4.4), any value other than the explicit one. *)
Definition DmtxUnlatchImplicit : Z := 1.

(** ** The collaborators of the dispatcher *)

(** The stream primitives [EncodeChangeScheme] calls. Each is a [void]
    function of the library that updates the stream it is given. *)
Class Emitters : Type := {
  EncodeUnlatchCTX : DmtxEncodeStream -> DmtxEncodeStream;
  EncodeValueEdifact : DmtxEncodeStream -> Z -> DmtxEncodeStream;
  EncodeValueAscii : DmtxEncodeStream -> Z -> DmtxEncodeStream;
  UpdateBase256ChainHeader : DmtxEncodeStream -> Z -> DmtxEncodeStream
}.

(** The scheme-specific encoders [EncodeNextChunk] distributes work to. *)
Class SubEncoders : Type := {
  EncodeNextChunkAscii : DmtxEncodeStream -> DmtxEncodeStream;
  CompleteIfDoneAscii : DmtxEncodeStream -> Z -> DmtxEncodeStream;
  EncodeNextChunkCTX : DmtxEncodeStream -> Z -> DmtxEncodeStream;
  CompleteIfDoneCTX : DmtxEncodeStream -> Z -> DmtxEncodeStream;
  EncodeNextChunkEdifact : DmtxEncodeStream -> DmtxEncodeStream;
  CompleteIfDoneEdifact : DmtxEncodeStream -> Z -> DmtxEncodeStream;
  EncodeNextChunkBase256 : DmtxEncodeStream -> DmtxEncodeStream;
  CompleteIfDoneBase256 : DmtxEncodeStream -> Z -> DmtxEncodeStream
}.

(** ** Control flow of a [void] function body *)

(** Where control stands after a statement: at the next statement, at the
    function's end after a [return], or nowhere after a failed [assert]. *)
Inductive flow : Type :=
| Next (stream : DmtxEncodeStream)
| Return (stream : DmtxEncodeStream)
| Crash.

Definition stmt : Type := DmtxEncodeStream -> flow.

Definition seq_stmt (a b : stmt) : stmt :=
  fun stream =>
    match a stream with
    | Next stream' => b stream'
    | Return stream' => Return stream'
    | Crash => Crash
    end.

Notation "a ;; b" := (seq_stmt a b) (at level 61, right associativity).

(** A call of a [void] function on the stream, or an assignment to a field. *)
Definition call (f : DmtxEncodeStream -> DmtxEncodeStream) : stmt :=
  fun stream => Next (f stream).

(** A call of a function of this file that may fail an [assert]. *)
Definition call_checked (f : DmtxEncodeStream -> outcome DmtxEncodeStream) : stmt :=
  fun stream =>
    match f stream with
    | Done stream' => Next stream'
    | _ => Crash
    end.

(** An [if] without [else]. *)
Definition when (c : bool) (a : stmt) : stmt :=
  fun stream => if c then a stream else Next stream.

Definition c_assert (c : DmtxEncodeStream -> bool) : stmt :=
  fun stream => if c stream then Next stream else Crash.

(** The macros of source lines 87 and 90. *)
Definition CHKSCHEME (s : DmtxScheme) : stmt :=
  fun stream =>
    if negb (scheme_eqb (currentScheme stream) s)
    then Return (StreamMarkFatal stream 1)
    else Next stream.

Definition CHKERR : stmt :=
  fun stream =>
    if negb (status_eqb (status stream) DmtxStatusEncoding)
    then Return stream
    else Next stream.

Definition void_body (b : stmt) (stream : DmtxEncodeStream) : outcome DmtxEncodeStream :=
  match b stream with
  | Next stream' => Done stream'
  | Return stream' => Done stream'
  | Crash => AssertFailed
  end.

(** ** The dispatcher *)

Section Dispatcher.

Context {E : Emitters}.

(** Source lines 164-230. *)
Definition EncodeChangeScheme (stream : DmtxEncodeStream) (targetScheme : DmtxScheme)
    (unlatchType : Z) : outcome DmtxEncodeStream :=
  void_body (
    (* Nothing to do *)
    (fun stream =>
       if scheme_eqb (currentScheme stream) targetScheme then Return stream else Next stream) ;;
    (* Every latch must go through ASCII *)
    (fun stream =>
       match currentScheme stream with
       | DmtxSchemeC40 | DmtxSchemeText | DmtxSchemeX12 =>
           when (unlatchType =? DmtxUnlatchExplicit)
                (call EncodeUnlatchCTX ;; CHKERR) stream
       | DmtxSchemeEdifact =>
           when (unlatchType =? DmtxUnlatchExplicit)
                (call (fun stream => EncodeValueEdifact stream DmtxValueEdifactUnlatch) ;; CHKERR)
                stream
       | _ =>
           (* Nothing to do for ASCII or Base 256 *)
           c_assert (fun stream =>
                       scheme_eqb (currentScheme stream) DmtxSchemeAscii
                       || scheme_eqb (currentScheme stream) DmtxSchemeBase256) stream
       end) ;;
    call (set_currentScheme DmtxSchemeAscii) ;;
    (* Anything other than ASCII (the default) requires a latch *)
    match targetScheme with
    | DmtxSchemeC40 =>
        call (fun stream => EncodeValueAscii stream DmtxValueC40Latch) ;; CHKERR
    | DmtxSchemeText =>
        call (fun stream => EncodeValueAscii stream DmtxValueTextLatch) ;; CHKERR
    | DmtxSchemeX12 =>
        call (fun stream => EncodeValueAscii stream DmtxValueX12Latch) ;; CHKERR
    | DmtxSchemeEdifact =>
        call (fun stream => EncodeValueAscii stream DmtxValueEdifactLatch) ;; CHKERR
    | DmtxSchemeBase256 =>
        call (fun stream => EncodeValueAscii stream DmtxValueBase256Latch) ;; CHKERR
    | _ =>
        (* Nothing to do for ASCII *)
        CHKSCHEME DmtxSchemeAscii
    end ;;
    call (set_currentScheme targetScheme) ;;
    (* Reset new chain length to zero *)
    call (set_outputChainWordCount 0) ;;
    call (set_outputChainValueCount 0) ;;
    (* Insert header byte if just latched to Base256 *)
    when (scheme_eqb targetScheme DmtxSchemeBase256)
         (call (fun stream => UpdateBase256ChainHeader stream DmtxUndefined) ;; CHKERR)
  ) stream.

Context {X : SubEncoders}.

(** Source lines 124-158. *)
Definition EncodeNextChunk (stream : DmtxEncodeStream) (targetScheme : DmtxScheme)
    (requestedSizeIdx : Z) : outcome DmtxEncodeStream :=
  void_body (
    (* Change to target scheme if necessary *)
    (fun stream =>
       when (negb (scheme_eqb (currentScheme stream) targetScheme))
            (call_checked (fun stream =>
                             EncodeChangeScheme stream targetScheme DmtxUnlatchExplicit) ;;
             CHKERR ;;
             CHKSCHEME targetScheme) stream) ;;
    (fun stream =>
       match currentScheme stream with
       | DmtxSchemeAscii =>
           (call EncodeNextChunkAscii ;; CHKERR ;;
            call (fun stream => CompleteIfDoneAscii stream requestedSizeIdx) ;; CHKERR) stream
       | DmtxSchemeC40 | DmtxSchemeText | DmtxSchemeX12 =>
           (call (fun stream => EncodeNextChunkCTX stream requestedSizeIdx) ;; CHKERR ;;
            call (fun stream => CompleteIfDoneCTX stream requestedSizeIdx) ;; CHKERR) stream
       | DmtxSchemeEdifact =>
           (call EncodeNextChunkEdifact ;; CHKERR ;;
            call (fun stream => CompleteIfDoneEdifact stream requestedSizeIdx) ;; CHKERR) stream
       | DmtxSchemeBase256 =>
           (call EncodeNextChunkBase256 ;; CHKERR ;;
            call (fun stream => CompleteIfDoneBase256 stream requestedSizeIdx) ;; CHKERR) stream
       | _ =>
           call (fun stream => StreamMarkFatal stream 1) stream
       end)
  ) stream.

(** The [while] loop of source lines 108-109, with a bound on the number of
    iterations. *)
Fixpoint EncodeSingleScheme2_loop (fuel : nat) (stream : DmtxEncodeStream)
    (targetScheme : DmtxScheme) (requestedSizeIdx : Z) : outcome DmtxEncodeStream :=
  if status_eqb (status stream) DmtxStatusEncoding then
    match fuel with
    | O => OutOfFuel
    | S fuel' =>
        match EncodeNextChunk stream targetScheme requestedSizeIdx with
        | Done stream' => EncodeSingleScheme2_loop fuel' stream' targetScheme requestedSizeIdx
        | AssertFailed => AssertFailed
        | OutOfFuel => OutOfFuel
        end
    end
  else Done stream.

(** Source lines 99-115. The function returns a [DmtxPassFail] and leaves its
    effect in [*stream]: the model returns both. *)
Definition EncodeSingleScheme2 (fuel : nat) (stream : DmtxEncodeStream)
    (targetScheme : DmtxScheme) (requestedSizeIdx : Z)
    : outcome (DmtxPassFail * DmtxEncodeStream) :=
  if negb (scheme_eqb (currentScheme stream) DmtxSchemeAscii) then
    Done (DmtxFail, StreamMarkFatal stream 1)
  else
    match EncodeSingleScheme2_loop fuel stream targetScheme requestedSizeIdx with
    | Done stream' =>
        if negb (status_eqb (status stream') DmtxStatusComplete) || StreamInputHasNext stream'
        then Done (DmtxFail, stream')
        else Done (DmtxPass, stream')
    | AssertFailed => AssertFailed
    | OutOfFuel => OutOfFuel
    end.

(** [chunks n stream]: the stream after [n] successive calls of
    [EncodeNextChunk]. *)
Fixpoint chunks (n : nat) (stream : DmtxEncodeStream) (targetScheme : DmtxScheme)
    (requestedSizeIdx : Z) : outcome DmtxEncodeStream :=
  match n with
  | O => Done stream
  | S n' =>
      match EncodeNextChunk stream targetScheme requestedSizeIdx with
      | Done stream' => chunks n' stream' targetScheme requestedSizeIdx
      | AssertFailed => AssertFailed
      | OutOfFuel => OutOfFuel
      end
  end.

(** [still_encoding n stream]: the first [n] calls of [EncodeNextChunk] all
    return, each to a stream whose status is Encoding; the stream before the
    first call included. *)
Definition still_encoding (n : nat) (stream : DmtxEncodeStream) (targetScheme : DmtxScheme)
    (requestedSizeIdx : Z) : Prop :=
  forall k, (k <= n)%nat ->
    exists stream_k,
      chunks k stream targetScheme requestedSizeIdx = Done stream_k
      /\ status stream_k = DmtxStatusEncoding.

End Dispatcher.

(** ** The procedures of the specification (section 4.1)

    Written after the specification's words, to be compared with the
    embedding of the source above. *)

Section Procedures.

Context {E : Emitters} {X : SubEncoders}.

(** Invariant I1: once the status is no longer Encoding nothing more is
    done. *)
Definition while_encoding (f : DmtxEncodeStream -> DmtxEncodeStream)
    (stream : DmtxEncodeStream) : DmtxEncodeStream :=
  if status_eqb (status stream) DmtxStatusEncoding then f stream else stream.

(** Which unlatch leaving a scheme takes: the CTX unlatch codeword out of
    C40, Text and X12, the EDIFACT unlatch value out of EDIFACT, both only
    when an explicit unlatch is requested; none out of ASCII and Base 256. *)
Inductive unlatch_kind : Type :=
| UnlatchCTX
| UnlatchEdifact
| NoUnlatch.

Definition unlatch_required (current : DmtxScheme) (unlatchType : Z) : unlatch_kind :=
  if unlatchType =? DmtxUnlatchExplicit then
    match current with
    | DmtxSchemeC40 | DmtxSchemeText | DmtxSchemeX12 => UnlatchCTX
    | DmtxSchemeEdifact => UnlatchEdifact
    | _ => NoUnlatch
    end
  else NoUnlatch.

Definition emit_unlatch (k : unlatch_kind) (stream : DmtxEncodeStream) : DmtxEncodeStream :=
  match k with
  | UnlatchCTX => EncodeUnlatchCTX stream
  | UnlatchEdifact => EncodeValueEdifact stream 31
  | NoUnlatch => stream
  end.

(** The latch codeword of each target scheme, emitted in ASCII. *)
Definition latch_codeword (target : DmtxScheme) : option Z :=
  match target with
  | DmtxSchemeC40 => Some 230
  | DmtxSchemeText => Some 239
  | DmtxSchemeX12 => Some 238
  | DmtxSchemeEdifact => Some 240
  | DmtxSchemeBase256 => Some 231
  | _ => None
  end.

Definition emit_latch (target : DmtxScheme) (stream : DmtxEncodeStream) : DmtxEncodeStream :=
  match latch_codeword target with
  | Some codeword => EncodeValueAscii stream codeword
  | None => stream
  end.

(** The stream at the moment the chain counters have been reset: the new
    scheme is in force and its chain is empty. *)
Definition start_chain (target : DmtxScheme) (stream : DmtxEncodeStream) : DmtxEncodeStream :=
  set_outputChainValueCount 0 (set_outputChainWordCount 0 (set_currentScheme target stream)).

Definition write_initial_header (target : DmtxScheme) (stream : DmtxEncodeStream)
    : DmtxEncodeStream :=
  if scheme_eqb target DmtxSchemeBase256
  then UpdateBase256ChainHeader stream DmtxUndefined
  else stream.

(** [change_scheme]: unlatch, pass through ASCII, latch, reset the chain
    counters, write the Base 256 header. *)
Definition change_scheme (stream : DmtxEncodeStream) (target : DmtxScheme) (unlatchType : Z)
    : DmtxEncodeStream :=
  while_encoding
    (fun unlatched =>
       while_encoding
         (fun latched => write_initial_header target (start_chain target latched))
         (emit_latch target (set_currentScheme DmtxSchemeAscii unlatched)))
    (emit_unlatch (unlatch_required (currentScheme stream) unlatchType) stream).

(** The sub-encoder of a scheme: its chunk encoder and its completion test. *)
Definition sub_encoder (scheme : DmtxScheme) (requestedSizeIdx : Z)
    : option ((DmtxEncodeStream -> DmtxEncodeStream) * (DmtxEncodeStream -> DmtxEncodeStream)) :=
  match scheme with
  | DmtxSchemeAscii =>
      Some (EncodeNextChunkAscii, fun s => CompleteIfDoneAscii s requestedSizeIdx)
  | DmtxSchemeC40 | DmtxSchemeText | DmtxSchemeX12 =>
      Some (fun s => EncodeNextChunkCTX s requestedSizeIdx,
            fun s => CompleteIfDoneCTX s requestedSizeIdx)
  | DmtxSchemeEdifact =>
      Some (EncodeNextChunkEdifact, fun s => CompleteIfDoneEdifact s requestedSizeIdx)
  | DmtxSchemeBase256 =>
      Some (EncodeNextChunkBase256, fun s => CompleteIfDoneBase256 s requestedSizeIdx)
  | _ => None
  end.

(** Step (b) of [encode_next_chunk]: the chunk encoder of the current scheme,
    then its completion test unless the status changed; a scheme without a
    sub-encoder is a Fatal error. *)
Definition dispatch (stream : DmtxEncodeStream) (requestedSizeIdx : Z) : DmtxEncodeStream :=
  match sub_encoder (currentScheme stream) requestedSizeIdx with
  | Some (encode_chunk, complete_if_done) => while_encoding complete_if_done (encode_chunk stream)
  | None => StreamMarkFatal stream 1
  end.

(** [encode_next_chunk]: (a) when the current scheme differs from the target,
    change scheme with an explicit unlatch, and stop there if the status
    changed; (b) dispatch. Between the two the source checks once more that
    the target scheme is in force (line 131) and marks the stream Fatal
    otherwise. *)
Definition encode_next_chunk (stream : DmtxEncodeStream) (target : DmtxScheme)
    (requestedSizeIdx : Z) : outcome DmtxEncodeStream :=
  if scheme_eqb (currentScheme stream) target then Done (dispatch stream requestedSizeIdx)
  else
    match EncodeChangeScheme stream target DmtxUnlatchExplicit with
    | Done changed =>
        if negb (status_eqb (status changed) DmtxStatusEncoding) then Done changed
        else if negb (scheme_eqb (currentScheme changed) target)
             then Done (StreamMarkFatal changed 1)
             else Done (dispatch changed requestedSizeIdx)
    | _ => AssertFailed
    end.

End Procedures.

(** ** The stream primitives, after the specification *)

(** The primitives below are defined in sibling files of the library, none
    of them under src/. *)

(** Modelled from the spec: appending a codeword to the output (section 3:
    [outputChainWordCount] is the number of output codewords emitted since the
    last scheme change; source lines 30-31: a word is a full codeword byte
    appended to the encoded output). *)
Definition StreamOutputChainAppend (stream : DmtxEncodeStream) (value : Z) : DmtxEncodeStream :=
  set_outputChainWordCount (outputChainWordCount stream + 1)
    (set_output (output stream ++ [value]) stream).

(** Modelled from the spec: one more value in the current chain
    ([outputChainValueCount], section 3). *)
Definition count_value (stream : DmtxEncodeStream) : DmtxEncodeStream :=
  set_outputChainValueCount (outputChainValueCount stream + 1) stream.

(** Modelled from the spec: an ASCII value is one codeword and one value
    (source line 35); emitting it in another scheme is a Fatal error
    (section 7). *)
Definition spec_EncodeValueAscii (stream : DmtxEncodeStream) (value : Z) : DmtxEncodeStream :=
  if negb (scheme_eqb (currentScheme stream) DmtxSchemeAscii) then StreamMarkFatal stream 1
  else count_value (StreamOutputChainAppend stream value).

(** Modelled from the spec: the CTX unlatch is the codeword 254, one value in
    one word (section 4.1, source line 38), counted in the scheme being
    exited. *)
Definition spec_EncodeUnlatchCTX (stream : DmtxEncodeStream) : DmtxEncodeStream :=
  if negb (IsCTX (currentScheme stream)) then StreamMarkFatal stream 1
  else count_value (StreamOutputChainAppend stream DmtxValueCTXUnlatch).

(** Modelled from the spec: the bit accumulator of section 4.4 is the last
    codeword written; new bits are or-ed into it. *)
Fixpoint or_last (l : list Z) (bits : Z) : list Z :=
  match l with
  | [] => []
  | [b] => [Z.lor b bits]
  | b :: l' => b :: or_last l' bits
  end.

(** Modelled from the spec: section 4.4, four six-bit values are packed into
    three codewords, 24 bits most significant first; bits not yet written are
    zero, so a value that ends a chain in the middle of a byte leaves it
    zero-filled. *)
Definition spec_EncodeValueEdifact (stream : DmtxEncodeStream) (value : Z) : DmtxEncodeStream :=
  if negb (scheme_eqb (currentScheme stream) DmtxSchemeEdifact) then StreamMarkFatal stream 1
  else
    let v := Z.land value 63 in
    let or_into_last bits s := set_output (or_last (output s) bits) s in
    count_value
      match outputChainValueCount stream mod 4 with
      | 0 => StreamOutputChainAppend stream (Z.shiftl v 2)
      | 1 => StreamOutputChainAppend (or_into_last (Z.shiftr v 4) stream)
                                     (Z.shiftl (Z.land v 15) 4)
      | 2 => StreamOutputChainAppend (or_into_last (Z.shiftr v 2) stream)
                                     (Z.shiftl (Z.land v 3) 6)
      | _ => or_into_last v stream
      end.

(** Modelled from the spec: section 4.1, on a latch to Base 256 an initial
    header byte of length 0 is written; section 4.5, header bytes are
    randomized under R255 at their 1-based position in the output; section 3,
    [outputChainWordCount] is reset to 0 on Base 256 header update, and header
    bytes do not count as values. Only the header of a fresh chain is written
    here: that is the call [EncodeChangeScheme] makes. The rewriting of the
    header of a chain that already has words belongs to the Base 256
    sub-encoder. *)
Definition spec_UpdateBase256ChainHeader (stream : DmtxEncodeStream) (perfectSizeIdx : Z)
    : DmtxEncodeStream :=
  set_outputChainWordCount 0
    (if outputChainWordCount stream =? 0 then
       set_output
         (output stream ++ [Randomize255State2 0 (Z.of_nat (length (output stream)) + 1)])
         stream
     else stream).

(** Modelled from the spec: the stream primitives above, as an
    implementation of [Emitters]. *)
Definition SpecEmitters : Emitters := {|
  EncodeUnlatchCTX := spec_EncodeUnlatchCTX;
  EncodeValueEdifact := spec_EncodeValueEdifact;
  EncodeValueAscii := spec_EncodeValueAscii;
  UpdateBase256ChainHeader := spec_UpdateBase256ChainHeader
|}.

(** ** An ASCII sub-encoder, after the specification

    Used to run the dispatcher on concrete inputs. *)

(** Modelled from the spec: the symbol oracle of section 4.7 over the
    data-word capacities of the square ECC 200 symbols (10x10 holds 3 data
    words, section 8, scenario 1); the attribute tables of the library are not
    under src/. The size index is the position in this list. *)
Definition symbolDataWords : list Z :=
  [3; 5; 8; 12; 18; 22; 30; 36; 44; 62; 86; 114; 144; 174; 204; 280; 368; 456;
   576; 696; 816; 1050; 1304; 1558].

(** Modelled from the spec: [capacity] of section 4.7, the data words of a
    size index. *)
Definition capacity (sizeIdx : Z) : Z :=
  if sizeIdx <? 0 then DmtxUndefined
  else nth (Z.to_nat sizeIdx) symbolDataWords DmtxUndefined.

(** Modelled from the spec: the first size, from [idx] on, that holds
    [wordsRequired] data words (section 4.7). *)
Fixpoint smallest_from (caps : list Z) (idx wordsRequired : Z) : Z :=
  match caps with
  | [] => DmtxUndefined
  | c :: caps' => if wordsRequired <=? c then idx else smallest_from caps' (idx + 1) wordsRequired
  end.

(** Modelled from the spec: [find_symbol_size] returns the smallest size
    whose capacity is at least [wordsRequired], subject to the caller's
    restriction, and the sentinel when there is none (section 4.7). *)
Definition FindSymbolSize (wordsRequired requestedSizeIdx : Z) : Z :=
  if requestedSizeIdx =? DmtxUndefined then smallest_from symbolDataWords 0 wordsRequired
  else if wordsRequired <=? capacity requestedSizeIdx then requestedSizeIdx
  else DmtxUndefined.

(** Modelled from the spec: [peek] of the input cursor (section 3), [k]
    bytes ahead. *)
Definition input_at (stream : DmtxEncodeStream) (k : Z) : option Z :=
  if inputNext stream + k <? 0 then None
  else nth_error (input stream) (Z.to_nat (inputNext stream + k)).

(** Modelled from the spec: [advance] of the input cursor (section 3). *)
Definition advance (k : Z) (stream : DmtxEncodeStream) : DmtxEncodeStream :=
  set_inputNext (inputNext stream + k) stream.

(** Modelled from the spec: a decimal digit, for the digit pairs of
    section 4.2. *)
Definition is_digit (v : Z) : bool := (48 <=? v) && (v <=? 57).

(** Modelled from the spec: section 4.2, one input byte per chunk, two for a
    digit pair (codeword 130 + 10 d1 + d2); bytes 0..127 are the codewords
    1..128; a byte from 128 on is the upper shift 235 followed by the byte
    less 128 as ASCII. *)
Definition spec_EncodeNextChunkAscii (stream : DmtxEncodeStream) : DmtxEncodeStream :=
  let single v :=
    if v <? 128 then spec_EncodeValueAscii (advance 1 stream) (v + 1)
    else while_encoding (fun s => spec_EncodeValueAscii s (v - 128 + 1))
           (spec_EncodeValueAscii (advance 1 stream) DmtxValueAsciiUpperShift) in
  match input_at stream 0, input_at stream 1 with
  | None, _ => stream
  | Some v0, Some v1 =>
      if is_digit v0 && is_digit v1
      then spec_EncodeValueAscii (advance 2 stream) (10 * (v0 - 48) + (v1 - 48) + 130)
      else single v0
  | Some v0, None => single v0
  end.

(** Modelled from the spec: the finalizer of section 4.6. The first pad is
    the literal 129, each later pad at the 1-based output position p is
    [Randomize253State2 129 p]. *)
Fixpoint pad_remaining (n : nat) (first : bool) (stream : DmtxEncodeStream) : DmtxEncodeStream :=
  match n with
  | O => stream
  | S n' =>
      if first then
        pad_remaining n' false (spec_EncodeValueAscii stream DmtxValueAsciiPad)
      else
        match Randomize253State2 DmtxValueAsciiPad (Z.of_nat (length (output stream)) + 1) with
        | Done pad => pad_remaining n' false (spec_EncodeValueAscii stream pad)
        | _ => StreamMarkFatal stream 1
        end
  end.

(** Modelled from the spec: section 4.2, when the input is exhausted the
    output is padded to the capacity of the smallest size that holds it and
    the stream is Complete; without such a size the stream is Invalid
    (section 4.7). *)
Definition spec_CompleteIfDoneAscii (stream : DmtxEncodeStream) (requestedSizeIdx : Z)
    : DmtxEncodeStream :=
  if StreamInputHasNext stream then stream
  else
    let len := Z.of_nat (length (output stream)) in
    let sizeIdx := FindSymbolSize len requestedSizeIdx in
    if sizeIdx =? DmtxUndefined then StreamMarkInvalid stream 1
    else StreamMarkComplete (pad_remaining (Z.to_nat (capacity sizeIdx - len)) true stream).

(** Modelled from the spec: the sub-encoders with which the dispatcher is
    run below. The ASCII sub-encoder is the one above; the packing rules of
    the CTX, EDIFACT and Base 256 sub-encoders (sections 4.3 to 4.5) are
    outside this development, and this instance marks a stream that reaches
    them Invalid. *)
Definition AsciiSubEncoders : SubEncoders := {|
  EncodeNextChunkAscii := spec_EncodeNextChunkAscii;
  CompleteIfDoneAscii := spec_CompleteIfDoneAscii;
  EncodeNextChunkCTX := fun stream _ => StreamMarkInvalid stream 1;
  CompleteIfDoneCTX := fun stream _ => stream;
  EncodeNextChunkEdifact := fun stream => StreamMarkInvalid stream 1;
  CompleteIfDoneEdifact := fun stream _ => stream;
  EncodeNextChunkBase256 := fun stream => StreamMarkInvalid stream 1;
  CompleteIfDoneBase256 := fun stream _ => stream
|}.

(** The dispatcher over the primitives and the sub-encoder above. *)
Definition run_EncodeSingleScheme2 (fuel : nat) (stream : DmtxEncodeStream)
    (targetScheme : DmtxScheme) (requestedSizeIdx : Z)
    : outcome (DmtxPassFail * DmtxEncodeStream) :=
  @EncodeSingleScheme2 SpecEmitters AsciiSubEncoders fuel stream targetScheme requestedSizeIdx.

Definition run_EncodeChangeScheme (stream : DmtxEncodeStream) (targetScheme : DmtxScheme)
    (unlatchType : Z) : outcome DmtxEncodeStream :=
  @EncodeChangeScheme SpecEmitters stream targetScheme unlatchType.

Definition run_EncodeNextChunk (stream : DmtxEncodeStream) (targetScheme : DmtxScheme)
    (requestedSizeIdx : Z) : outcome DmtxEncodeStream :=
  @EncodeNextChunk SpecEmitters AsciiSubEncoders stream targetScheme requestedSizeIdx.

(** The codewords a scheme change appends to the output over the primitives
    above, when the scheme left is not EDIFACT (whose unlatch is packed into
    six bits): the CTX unlatch if one is required, the latch of the target,
    and the randomized header byte of an empty Base 256 chain. *)
Definition unlatch_codewords (current : DmtxScheme) (unlatchType : Z) : list Z :=
  match unlatch_required current unlatchType with
  | UnlatchCTX => [254]
  | _ => []
  end.

Definition latch_codewords (target : DmtxScheme) : list Z :=
  match latch_codeword target with
  | Some codeword => [codeword]
  | None => []
  end.

Definition header_codewords (target : DmtxScheme) (written : list Z) : list Z :=
  if scheme_eqb target DmtxSchemeBase256
  then [Randomize255State2 0 (Z.of_nat (length written) + 1)]
  else [].

(** ** Remaining capacity of a symbol *)

Section SymbolCapacity.

(** The attribute lookup of the library (dmtxsymbol.c) and the attribute
    that names the data words of a symbol (dmtx.h); neither is under src/, and
    both are taken as given. *)
Variable dmtxGetSymbolAttribute : Z -> Z -> Z.
Variable DmtxSymAttribSymbolDataWords : Z.

(** Source lines 274-291. *)
Definition GetRemainingSymbolCapacity (outputLength sizeIdx : Z) : Z :=
  if sizeIdx =? DmtxUndefined then DmtxUndefined
  else
    let capacity := dmtxGetSymbolAttribute DmtxSymAttribSymbolDataWords sizeIdx in
    int_sub capacity outputLength.

End SymbolCapacity.

(** ** Conditions on the collaborators *)



(** The sub-encoders leave the stream in one of the six schemes. *)
Definition sub_encoders_keep_recognized (X : SubEncoders) : Prop :=
  forall s requestedSizeIdx,
    recognized (currentScheme s) = true ->
    recognized (currentScheme (@dispatch X s requestedSizeIdx)) = true.

(** Every call of [EncodeNextChunk] on a stream in status Encoding that
    satisfies [Inv] returns, and either leaves the status Encoding behind or
    keeps [Inv] and lowers [measure]. *)
Definition chunks_make_progress (E : Emitters) (X : SubEncoders)
    (Inv : DmtxEncodeStream -> Prop) (measure : DmtxEncodeStream -> nat)
    (targetScheme : DmtxScheme) (requestedSizeIdx : Z) : Prop :=
  forall s,
    Inv s -> status s = DmtxStatusEncoding ->
    exists s',
      @EncodeNextChunk E X s targetScheme requestedSizeIdx = Done s'
      /\ (status s' = DmtxStatusEncoding -> Inv s' /\ (measure s' < measure s)%nat).

(** The input bytes not yet read, and the streams the ASCII sub-encoder keeps
    to: scheme ASCII and a read index that is not negative. *)
Definition input_remaining (s : DmtxEncodeStream) : nat :=
  Z.to_nat (Z.of_nat (length (input s)) - inputNext s).

Definition ascii_reading (s : DmtxEncodeStream) : Prop :=
  currentScheme s = DmtxSchemeAscii /\ 0 <= inputNext s.

(** ** Proof automation *)

(** Case analysis on the status a collaborator leaves behind. *)
Ltac case_status :=
  repeat match goal with
         | |- context [status_eqb (status ?s) _] =>
             let Hs := fresh "Hstatus" in
             destruct (status s) eqn:Hs; cbn in *
         end.

(* ===================================================================== *)
(** * Part II: properties                                                  *)
(* ===================================================================== *)

(** ** C integers *)

Lemma int_wrap_small (z : Z) : int_min <= z <= int_max -> int_wrap z = z.
Proof.
  unfold int_min, int_max, int_wrap. intros Hz.
  rewrite Z.mod_small; lia.
Qed.

Lemma int_rem_nonneg (a b : Z) : 0 <= a -> 0 < b -> int_rem a b = a mod b.
Proof.
  intros Ha Hb. unfold int_rem. apply Z.rem_mod_nonneg; assumption.
Qed.

(** The pseudo-random number of a position whose product with 149 is
    representable: no operation wraps, and [%] is the mathematical [mod]. *)
Lemma pseudoRandom_in_range (m p : Z) :
  0 < m <= 255 -> 0 <= p -> 149 * p <= int_max ->
  int_add (int_rem (int_mul 149 p) m) 1 = (149 * p) mod m + 1
  /\ 1 <= (149 * p) mod m + 1 <= m.
Proof.
  intros Hm Hp Hmax.
  assert (Hmod : 0 <= (149 * p) mod m < m) by (apply Z.mod_pos_bound; lia).
  unfold int_mul, int_add.
  rewrite (int_wrap_small (149 * p)) by (unfold int_min, int_max in *; lia).
  rewrite int_rem_nonneg by lia.
  rewrite int_wrap_small by (unfold int_min, int_max in *; lia).
  lia.
Qed.

(** ** The 253-state randomization *)

Lemma Randomize253State2_tmp_in_range (v p : Z) :
  0 <= v <= 255 -> 0 <= p -> 149 * p <= int_max ->
  Randomize253State2_tmp v p =
    (if v + ((149 * p) mod 253 + 1) >? 254
     then v + ((149 * p) mod 253 + 1) - 254
     else v + ((149 * p) mod 253 + 1)).
Proof.
  intros Hv Hp Hmax.
  destruct (pseudoRandom_in_range 253 p) as [Hpr Hb]; try lia.
  unfold Randomize253State2_tmp. rewrite Hpr.
  unfold int_add, int_sub.
  rewrite (int_wrap_small (v + _)) by (unfold int_min, int_max; lia).
  destruct (Z.gtb_spec (v + ((149 * p) mod 253 + 1)) 254); [|reflexivity].
  apply int_wrap_small. unfold int_min, int_max; lia.
Qed.

Lemma Randomize253State2_tmp_bounds (v p : Z) :
  0 <= v <= 255 -> 0 <= p -> 149 * p <= int_max ->
  1 <= Randomize253State2_tmp v p <= 254.
Proof.
  intros Hv Hp Hmax.
  rewrite Randomize253State2_tmp_in_range by assumption.
  destruct (pseudoRandom_in_range 253 p) as [_ Hb]; try lia.
  destruct (Z.gtb_spec (v + ((149 * p) mod 253 + 1)) 254); lia.
Qed.

Lemma Randomize253State2_in_range (v p : Z) :
  0 <= v <= 255 -> 0 <= p -> 149 * p <= int_max ->
  Randomize253State2 v p = Done (Randomize253State2_tmp v p).
Proof.
  intros Hv Hp Hmax.
  pose proof (Randomize253State2_tmp_bounds v p Hv Hp Hmax) as Hb.
  unfold Randomize253State2.
  destruct (Z.geb_spec (Randomize253State2_tmp v p) 0); [|lia].
  destruct (Z.ltb_spec (Randomize253State2_tmp v p) 256); [|lia].
  cbn. unfold to_DmtxByte. rewrite Z.mod_small by lia. reflexivity.
Qed.

(** ** The 255-state randomization *)

Lemma Randomize255State2_in_range (v p : Z) :
  0 <= v <= 255 -> 0 <= p -> 149 * p <= int_max ->
  Randomize255State2 v p = (v + ((149 * p) mod 255 + 1)) mod 256.
Proof.
  intros Hv Hp Hmax.
  destruct (pseudoRandom_in_range 255 p) as [Hpr Hb]; try lia.
  unfold Randomize255State2. rewrite Hpr.
  unfold int_add, int_sub, to_DmtxByte.
  rewrite (int_wrap_small (v + _)) by (unfold int_min, int_max; lia).
  destruct (Z.leb_spec (v + ((149 * p) mod 255 + 1)) 255) as [Hle|Hgt].
  - reflexivity.
  - rewrite int_wrap_small by (unfold int_min, int_max; lia).
    set (t := v + ((149 * p) mod 255 + 1)) in *.
    replace t with ((t - 256) + 1 * 256) at 2 by lia.
    rewrite Z.mod_add by lia. reflexivity.
Qed.

(** C3 (amended). For every 1-based output position [p] whose product with
    149 is representable as an [int] (p <= 14412641), the pad codeword 129
    randomized at [p] is ((129 + ((149 p) mod 253)) mod 254) + 1: the sum
    129 + ((149 p) mod 253) + 1 itself when it is at most 254, and the sum
    less 254 otherwise. The result stays in the range 1..254. *)
Theorem Randomize253State2_pad (p : Z) :
  1 <= p -> 149 * p <= int_max ->
  Randomize253State2 DmtxValueAsciiPad p
    = Done ((DmtxValueAsciiPad + (149 * p) mod 253) mod 254 + 1)
  /\ 1 <= (DmtxValueAsciiPad + (149 * p) mod 253) mod 254 + 1 <= 254.
Proof.
  intros Hp Hmax. unfold DmtxValueAsciiPad.
  assert (Hmod : 0 <= (149 * p) mod 253 < 253) by (apply Z.mod_pos_bound; lia).
  assert (Hmod' : 0 <= (129 + (149 * p) mod 253) mod 254 < 254)
    by (apply Z.mod_pos_bound; lia).
  split; [|lia].
  rewrite Randomize253State2_in_range by lia.
  rewrite Randomize253State2_tmp_in_range by lia.
  f_equal.
  destruct (Z.gtb_spec (129 + ((149 * p) mod 253 + 1)) 254) as [Hgt|Hle].
  - replace (129 + (149 * p) mod 253)
      with ((129 + (149 * p) mod 253 - 254) + 1 * 254) by lia.
    rewrite Z.mod_add by lia.
    rewrite (Z.mod_small (129 + (149 * p) mod 253 - 254) 254) by lia. lia.
  - rewrite (Z.mod_small (129 + (149 * p) mod 253) 254) by lia. lia.
Qed.

(** At position 28 the code yields the pad 254 where the formula of the
    specification yields 0, outside 0..253; and at the first position whose
    product with 149 does not fit an [int] no pad is produced at all. *)
Lemma Randomize253State2_pad_counterexample :
  Randomize253State2 129 28 = Done 254
  /\ R253_spec 129 28 = 0
  /\ Randomize253State2 129 14412642 = AssertFailed.
Proof. repeat split; vm_compute; reflexivity. Qed.

Lemma Randomize253State2_pad_witness :
  Randomize253State2 DmtxValueAsciiPad 28 = Done ((DmtxValueAsciiPad + (149 * 28) mod 253) mod 254 + 1)
  /\ 1 <= (DmtxValueAsciiPad + (149 * 28) mod 253) mod 254 + 1 <= 254.
Proof.
  apply (Randomize253State2_pad 28); unfold int_max; lia.
Defined.







(** For a byte [cwValue] and a non-negative position [cwPosition] whose
    product with 149 is representable as an [int] (cwPosition <= 14412641),
    the value of [tmp] after the conditional subtraction of 254 satisfies
    0 <= tmp < 256: the assertion holds and the function returns [tmp], which
    fits one byte. *)
Theorem Randomize253State2_assert_holds (cwValue cwPosition : Z) :
  0 <= cwValue <= 255 -> 0 <= cwPosition -> 149 * cwPosition <= int_max ->
  0 <= Randomize253State2_tmp cwValue cwPosition < 256
  /\ Randomize253State2 cwValue cwPosition = Done (Randomize253State2_tmp cwValue cwPosition).
Proof.
  intros Hv Hp Hmax. split.
  - pose proof (Randomize253State2_tmp_bounds cwValue cwPosition Hv Hp Hmax). lia.
  - apply Randomize253State2_in_range; assumption.
Qed.


Lemma Randomize253State2_assert_witness :
  0 <= Randomize253State2_tmp 255 14412641 < 256
  /\ Randomize253State2 255 14412641 = Done (Randomize253State2_tmp 255 14412641).
Proof.
  apply (Randomize253State2_assert_holds 255 14412641); unfold int_max; lia.
Defined.

(** ** Decidable comparisons *)

Lemma scheme_eqb_eq (a b : DmtxScheme) : scheme_eqb a b = true <-> a = b.
Proof. destruct a, b; cbn; split; intros H; congruence. Qed.

Lemma scheme_eqb_refl (a : DmtxScheme) : scheme_eqb a a = true.
Proof. destruct a; reflexivity. Qed.

Lemma scheme_eqb_neq (a b : DmtxScheme) : scheme_eqb a b = false <-> a <> b.
Proof. destruct a, b; cbn; split; intros H; congruence. Qed.

Lemma status_eqb_eq (a b : DmtxStatus) : status_eqb a b = true <-> a = b.
Proof. destruct a, b; cbn; split; intros H; congruence. Qed.

Lemma status_eqb_neq (a b : DmtxStatus) : status_eqb a b = false <-> a <> b.
Proof. destruct a, b; cbn; split; intros H; congruence. Qed.

(** ** The scheme change *)

Section ChangeScheme.

Context {E : Emitters}.

(** C9. When the target scheme is the stream's current scheme,
    [EncodeChangeScheme] returns at once and the stream is the one it was
    given: no codeword is emitted, and status, currentScheme,
    outputChainWordCount and outputChainValueCount keep their values. *)
Theorem EncodeChangeScheme_same_scheme (stream : DmtxEncodeStream) (targetScheme : DmtxScheme)
    (unlatchType : Z) :
  currentScheme stream = targetScheme ->
  EncodeChangeScheme stream targetScheme unlatchType = Done stream.
Proof.
  intros Hsame. unfold EncodeChangeScheme, void_body, seq_stmt.
  rewrite Hsame, scheme_eqb_refl. reflexivity.
Qed.

Lemma unlatch_required_CTX (current : DmtxScheme) (unlatchType : Z) :
  unlatch_required current unlatchType = UnlatchCTX
  <-> IsCTX current = true /\ unlatchType = DmtxUnlatchExplicit.
Proof.
  unfold unlatch_required.
  destruct (Z.eqb_spec unlatchType DmtxUnlatchExplicit); destruct current; cbn;
    intuition congruence.
Qed.

Lemma unlatch_required_Edifact (current : DmtxScheme) (unlatchType : Z) :
  unlatch_required current unlatchType = UnlatchEdifact
  <-> current = DmtxSchemeEdifact /\ unlatchType = DmtxUnlatchExplicit.
Proof.
  unfold unlatch_required.
  destruct (Z.eqb_spec unlatchType DmtxUnlatchExplicit); destruct current; cbn;
    intuition congruence.
Qed.

(** Away from a scheme outside the six the assertion of source lines 190-191
    fails. *)
Lemma EncodeChangeScheme_unrecognized (stream : DmtxEncodeStream) (targetScheme : DmtxScheme)
    (unlatchType : Z) :
  currentScheme stream <> targetScheme ->
  recognized (currentScheme stream) = false ->
  EncodeChangeScheme stream targetScheme unlatchType = AssertFailed.
Proof.
  intros Hneq Hrec. apply scheme_eqb_neq in Hneq.
  unfold EncodeChangeScheme, void_body, seq_stmt. rewrite Hneq.
  unfold c_assert.
  destruct (currentScheme stream) eqn:Hcur; try discriminate Hrec; cbn;
    try rewrite Hcur; reflexivity.
Qed.

(** The embedding of the source computes the procedure of the
    specification, for a stream in status Encoding whose scheme is one of the
    six and differs from the target. *)
Lemma EncodeChangeScheme_change_scheme (stream : DmtxEncodeStream) (targetScheme : DmtxScheme)
    (unlatchType : Z) :
  status stream = DmtxStatusEncoding ->
  currentScheme stream <> targetScheme ->
  recognized (currentScheme stream) = true ->
  EncodeChangeScheme stream targetScheme unlatchType
    = Done (change_scheme stream targetScheme unlatchType).
Proof.
  intros Hst Hneq Hrec.
  apply scheme_eqb_neq in Hneq.
  unfold EncodeChangeScheme, change_scheme, void_body, seq_stmt.
  rewrite Hneq.
  unfold unlatch_required, emit_unlatch, emit_latch, latch_codeword, while_encoding,
    write_initial_header, start_chain, when, call, CHKERR, CHKSCHEME, c_assert, seq_stmt,
    DmtxValueC40Latch, DmtxValueTextLatch, DmtxValueX12Latch, DmtxValueEdifactLatch,
    DmtxValueBase256Latch, DmtxValueEdifactUnlatch.
  destruct (currentScheme stream) eqn:Hcur; try discriminate Hrec;
    destruct (Z.eqb_spec unlatchType DmtxUnlatchExplicit);
    destruct targetScheme; try discriminate Hneq; cbn;
    try rewrite Hst; cbn; try rewrite Hcur; cbn;
    case_status; congruence.
Qed.

(** C2. For a stream in status Encoding whose current scheme (one of the
    six) differs from the target, [EncodeChangeScheme] carries out the
    procedure [change_scheme]: it emits the CTX unlatch (codeword 254,
    through [EncodeUnlatchCTX]) exactly when the current scheme is C40, Text
    or X12 and the unlatch type is explicit, the EDIFACT unlatch value 31
    exactly when the current scheme is EDIFACT and the unlatch type is
    explicit, and no unlatch out of ASCII or Base 256; it sets the current
    scheme to ASCII, emits the latch codeword of the target in ASCII (C40 230,
    Text 239, X12 238, EDIFACT 240, Base 256 231, none for ASCII) and sets the
    current scheme to the target. Each emission is followed by the status
    check that ends the call when the status is no longer Encoding. *)
Theorem EncodeChangeScheme_emits (stream : DmtxEncodeStream) (targetScheme : DmtxScheme)
    (unlatchType : Z) :
  status stream = DmtxStatusEncoding ->
  currentScheme stream <> targetScheme ->
  recognized (currentScheme stream) = true ->
  EncodeChangeScheme stream targetScheme unlatchType
    = Done (change_scheme stream targetScheme unlatchType)
  /\ (unlatch_required (currentScheme stream) unlatchType = UnlatchCTX
      <-> IsCTX (currentScheme stream) = true /\ unlatchType = DmtxUnlatchExplicit)
  /\ (unlatch_required (currentScheme stream) unlatchType = UnlatchEdifact
      <-> currentScheme stream = DmtxSchemeEdifact /\ unlatchType = DmtxUnlatchExplicit)
  /\ (currentScheme stream = DmtxSchemeAscii \/ currentScheme stream = DmtxSchemeBase256 ->
      unlatch_required (currentScheme stream) unlatchType = NoUnlatch)
  /\ (status (change_scheme stream targetScheme unlatchType) = DmtxStatusEncoding ->
      targetScheme <> DmtxSchemeBase256 ->
      currentScheme (change_scheme stream targetScheme unlatchType) = targetScheme).
Proof.
  intros Hst Hneq Hrec.
  split; [apply EncodeChangeScheme_change_scheme; assumption|].
  split; [apply unlatch_required_CTX|].
  split; [apply unlatch_required_Edifact|].
  split.
  - unfold unlatch_required. intros [Hcur|Hcur]; rewrite Hcur;
      destruct (unlatchType =? DmtxUnlatchExplicit); reflexivity.
  - unfold change_scheme, while_encoding, write_initial_header.
    intros Hdone Hnot256. apply scheme_eqb_neq in Hnot256. rewrite Hnot256 in *.
    revert Hdone. case_status; intros Hdone; first [congruence | reflexivity].
Qed.




End ChangeScheme.

(** ** The dispatcher *)

Section Dispatch.

Context {E : Emitters} {X : SubEncoders}.

Lemma dispatch_unrecognized (stream : DmtxEncodeStream) (requestedSizeIdx : Z) :
  recognized (currentScheme stream) = false ->
  dispatch stream requestedSizeIdx = StreamMarkFatal stream 1.
Proof.
  unfold dispatch, sub_encoder. destruct (currentScheme stream); cbn; congruence.
Qed.

Lemma dispatch_recognized (stream : DmtxEncodeStream) (requestedSizeIdx : Z) :
  recognized (currentScheme stream) = true ->
  exists encode_chunk complete_if_done,
    sub_encoder (currentScheme stream) requestedSizeIdx = Some (encode_chunk, complete_if_done)
    /\ dispatch stream requestedSizeIdx
       = (if status_eqb (status (encode_chunk stream)) DmtxStatusEncoding
          then complete_if_done (encode_chunk stream)
          else encode_chunk stream).
Proof.
  unfold dispatch, sub_encoder, while_encoding.
  destruct (currentScheme stream); cbn; try congruence; intros _;
    eexists; eexists; (split; [reflexivity|reflexivity]).
Qed.

Lemma EncodeNextChunk_encode_next_chunk (stream : DmtxEncodeStream)
    (targetScheme : DmtxScheme) (requestedSizeIdx : Z) :
  EncodeNextChunk stream targetScheme requestedSizeIdx
    = encode_next_chunk stream targetScheme requestedSizeIdx.
Proof.
  unfold EncodeNextChunk, encode_next_chunk, void_body, seq_stmt, when, call_checked.
  destruct (scheme_eqb (currentScheme stream) targetScheme) eqn:Hsame; cbn.
  - unfold dispatch, sub_encoder, while_encoding, call, CHKERR, seq_stmt.
    destruct (currentScheme stream); cbn; case_status; reflexivity.
  - destruct (EncodeChangeScheme stream targetScheme DmtxUnlatchExplicit)
      as [changed| |]; try reflexivity.
    unfold CHKERR at 1. unfold CHKSCHEME.
    destruct (status_eqb (status changed) DmtxStatusEncoding); cbn; [|reflexivity].
    destruct (scheme_eqb (currentScheme changed) targetScheme); cbn; [|reflexivity].
    unfold dispatch, sub_encoder, while_encoding, call, CHKERR, seq_stmt.
    destruct (currentScheme changed); cbn; case_status; reflexivity.
Qed.

(** C5. [EncodeNextChunk] first performs
    [EncodeChangeScheme stream target DmtxUnlatchExplicit] when the current
    scheme differs from the target, and returns at once if that leaves a
    status other than Encoding; it then dispatches on the current scheme to
    that scheme's EncodeNextChunk function followed by its CompleteIfDone
    function, the latter skipped as soon as the status has left Encoding; and
    a current scheme outside the six recognized ones marks the stream
    Fatal. *)
Theorem EncodeNextChunk_dispatches (stream : DmtxEncodeStream) (targetScheme : DmtxScheme)
    (requestedSizeIdx : Z) :
  EncodeNextChunk stream targetScheme requestedSizeIdx
    = encode_next_chunk stream targetScheme requestedSizeIdx
  /\ (forall changed,
        currentScheme stream <> targetScheme ->
        EncodeChangeScheme stream targetScheme DmtxUnlatchExplicit = Done changed ->
        status changed <> DmtxStatusEncoding ->
        EncodeNextChunk stream targetScheme requestedSizeIdx = Done changed)
  /\ (forall at_dispatch,
        recognized (currentScheme at_dispatch) = true ->
        exists encode_chunk complete_if_done,
          sub_encoder (currentScheme at_dispatch) requestedSizeIdx
            = Some (encode_chunk, complete_if_done)
          /\ dispatch at_dispatch requestedSizeIdx
             = (if status_eqb (status (encode_chunk at_dispatch)) DmtxStatusEncoding
                then complete_if_done (encode_chunk at_dispatch)
                else encode_chunk at_dispatch))
  /\ (forall at_dispatch,
        recognized (currentScheme at_dispatch) = false ->
        dispatch at_dispatch requestedSizeIdx = StreamMarkFatal at_dispatch 1
        /\ status (dispatch at_dispatch requestedSizeIdx) = DmtxStatusFatal).
Proof.
  split; [apply EncodeNextChunk_encode_next_chunk|].
  split; [|split].
  - intros changed Hneq Hchange Hst.
    rewrite EncodeNextChunk_encode_next_chunk. unfold encode_next_chunk.
    apply scheme_eqb_neq in Hneq. apply status_eqb_neq in Hst.
    rewrite Hneq, Hchange, Hst. reflexivity.
  - intros at_dispatch. apply dispatch_recognized.
  - intros at_dispatch Hrec. rewrite dispatch_unrecognized by assumption.
    split; reflexivity.
Qed.

End Dispatch.

(** ** The encoding loop *)

Section SingleScheme.

Context {E : Emitters} {X : SubEncoders}.

(** A [void] function has no loop: it never runs out of fuel. *)
Lemma EncodeNextChunk_no_fuel (stream : DmtxEncodeStream) (targetScheme : DmtxScheme)
    (requestedSizeIdx : Z) :
  EncodeNextChunk stream targetScheme requestedSizeIdx <> OutOfFuel.
Proof.
  unfold EncodeNextChunk, void_body.
  match goal with |- context [match ?b with _ => _ end] => destruct b end; discriminate.
Qed.

Lemma chunks_S (n : nat) (stream : DmtxEncodeStream) (targetScheme : DmtxScheme)
    (requestedSizeIdx : Z) :
  chunks (S n) stream targetScheme requestedSizeIdx
    = match EncodeNextChunk stream targetScheme requestedSizeIdx with
      | Done stream' => chunks n stream' targetScheme requestedSizeIdx
      | AssertFailed => AssertFailed
      | OutOfFuel => OutOfFuel
      end.
Proof. reflexivity. Qed.

Lemma EncodeSingleScheme2_loop_O (stream : DmtxEncodeStream) (targetScheme : DmtxScheme)
    (requestedSizeIdx : Z) :
  EncodeSingleScheme2_loop O stream targetScheme requestedSizeIdx
    = if status_eqb (status stream) DmtxStatusEncoding then OutOfFuel else Done stream.
Proof. reflexivity. Qed.

Lemma EncodeSingleScheme2_loop_S (fuel : nat) (stream : DmtxEncodeStream)
    (targetScheme : DmtxScheme) (requestedSizeIdx : Z) :
  EncodeSingleScheme2_loop (S fuel) stream targetScheme requestedSizeIdx
    = if status_eqb (status stream) DmtxStatusEncoding then
        match EncodeNextChunk stream targetScheme requestedSizeIdx with
        | Done stream' => EncodeSingleScheme2_loop fuel stream' targetScheme requestedSizeIdx
        | AssertFailed => AssertFailed
        | OutOfFuel => OutOfFuel
        end
      else Done stream.
Proof. reflexivity. Qed.

Lemma still_encoding_step (n : nat) (stream next : DmtxEncodeStream)
    (targetScheme : DmtxScheme) (requestedSizeIdx : Z) :
  status stream = DmtxStatusEncoding ->
  EncodeNextChunk stream targetScheme requestedSizeIdx = Done next ->
  still_encoding n next targetScheme requestedSizeIdx ->
  still_encoding (S n) stream targetScheme requestedSizeIdx.
Proof.
  intros Hst Hnext Hrest [|k] Hk.
  - exists stream. split; [reflexivity|assumption].
  - rewrite chunks_S, Hnext. apply Hrest. lia.
Qed.

(** What the loop does, by its outcome. *)
Lemma EncodeSingleScheme2_loop_spec (fuel : nat) :
  forall (stream : DmtxEncodeStream) (targetScheme : DmtxScheme) (requestedSizeIdx : Z),
  match EncodeSingleScheme2_loop fuel stream targetScheme requestedSizeIdx with
  | Done stream' =>
      status stream' <> DmtxStatusEncoding
      /\ exists n, (n <= fuel)%nat
           /\ chunks n stream targetScheme requestedSizeIdx = Done stream'
           /\ (forall k, (k < n)%nat ->
                 still_encoding k stream targetScheme requestedSizeIdx)
  | AssertFailed =>
      exists n, (n < fuel)%nat
        /\ still_encoding n stream targetScheme requestedSizeIdx
        /\ chunks (S n) stream targetScheme requestedSizeIdx = AssertFailed
  | OutOfFuel => still_encoding fuel stream targetScheme requestedSizeIdx
  end.
Proof.
  induction fuel as [|fuel IH]; intros stream targetScheme requestedSizeIdx.
  - rewrite EncodeSingleScheme2_loop_O.
    destruct (status_eqb (status stream) DmtxStatusEncoding) eqn:Hst.
    + apply status_eqb_eq in Hst. intros k Hk. assert (k = 0)%nat as -> by lia.
      exists stream. split; [reflexivity|assumption].
    + apply status_eqb_neq in Hst. split; [assumption|].
      exists 0%nat. repeat split; [lia|]. intros k Hk. lia.
  - rewrite EncodeSingleScheme2_loop_S.
    destruct (status_eqb (status stream) DmtxStatusEncoding) eqn:Hst.
    + apply status_eqb_eq in Hst.
      destruct (EncodeNextChunk stream targetScheme requestedSizeIdx) as [next| |] eqn:Hnext.
      * specialize (IH next targetScheme requestedSizeIdx).
        destruct (EncodeSingleScheme2_loop fuel next targetScheme requestedSizeIdx)
          as [stream'| |].
        -- destruct IH as (Hexit & n & Hn & Hrun & Hbefore).
           split; [assumption|]. exists (S n). split; [lia|]. split.
           ++ rewrite chunks_S, Hnext. assumption.
           ++ intros [|k] Hk.
              ** intros j Hj. assert (j = 0)%nat as -> by lia.
                 exists stream. split; [reflexivity|assumption].
              ** apply (still_encoding_step k stream next); auto. apply Hbefore. lia.
        -- destruct IH as (n & Hn & Hbefore & Hcrash).
           exists (S n). split; [lia|]. split.
           ++ apply (still_encoding_step n stream next); auto.
           ++ rewrite chunks_S, Hnext. assumption.
        -- apply (still_encoding_step fuel stream next); auto.
      * exists 0%nat. split; [lia|]. split.
        -- intros k Hk. assert (k = 0)%nat as -> by lia.
           exists stream. split; [reflexivity|assumption].
        -- rewrite chunks_S, Hnext. reflexivity.
      * exfalso. exact (EncodeNextChunk_no_fuel _ _ _ Hnext).
    + apply status_eqb_neq in Hst. split; [assumption|].
      exists 0%nat. repeat split; [lia|]. intros k Hk. lia.
Qed.

(** With fuel for the calls it takes to leave the status Encoding, the loop
    returns. *)
Lemma EncodeSingleScheme2_loop_returns (fuel : nat) :
  forall (stream : DmtxEncodeStream) (targetScheme : DmtxScheme) (requestedSizeIdx : Z)
         (n : nat) (stream_n : DmtxEncodeStream),
  chunks n stream targetScheme requestedSizeIdx = Done stream_n ->
  status stream_n <> DmtxStatusEncoding ->
  (n <= fuel)%nat ->
  exists stream', EncodeSingleScheme2_loop fuel stream targetScheme requestedSizeIdx = Done stream'.
Proof.
  intros stream targetScheme requestedSizeIdx n stream_n Hrun Hexit Hfuel.
  pose proof (EncodeSingleScheme2_loop_spec fuel stream targetScheme requestedSizeIdx) as Hspec.
  destruct (EncodeSingleScheme2_loop fuel stream targetScheme requestedSizeIdx) as [stream'| |].
  - exists stream'. reflexivity.
  - exfalso. destruct Hspec as (m & Hm & Hbefore & Hcrash).
    destruct (Nat.le_gt_cases n m) as [Hle|Hgt].
    + destruct (Hbefore n Hle) as (s & Hs & Hst). congruence.
    + (* the run to [n] goes through the failing call *)
      clear Hbefore Hm Hexit Hfuel.
      revert stream m Hrun Hcrash Hgt.
      induction n as [|n IHn]; intros stream m Hrun Hcrash Hgt; [lia|].
      rewrite chunks_S in Hrun, Hcrash.
      destruct (EncodeNextChunk stream targetScheme requestedSizeIdx) as [next| |];
        try discriminate Hrun.
      destruct m as [|m]; [discriminate Hcrash|].
      apply (IHn next m); [assumption|assumption|lia].
  - exfalso. destruct (Hspec n Hfuel) as (s & Hs & Hst). congruence.
Qed.

(** C1. [EncodeSingleScheme2] calls [EncodeNextChunk] again and again, each
    time on a stream whose status is Encoding, and stops at the first stream
    whose status is not; it then returns DmtxPass if and only if the status
    is Complete and the input cursor is exhausted, and DmtxFail in every
    other case. Whenever some number of calls within the fuel leaves the
    status Encoding, the function returns. *)
Theorem EncodeSingleScheme2_result (fuel : nat) (stream : DmtxEncodeStream)
    (targetScheme : DmtxScheme) (requestedSizeIdx : Z) :
  match EncodeSingleScheme2 fuel stream targetScheme requestedSizeIdx with
  | Done (passFail, stream') =>
      (passFail = DmtxPass
       <-> status stream' = DmtxStatusComplete /\ StreamInputHasNext stream' = false)
      /\ (passFail = DmtxFail
          <-> ~ (status stream' = DmtxStatusComplete /\ StreamInputHasNext stream' = false))
      /\ status stream' <> DmtxStatusEncoding
      /\ ((currentScheme stream <> DmtxSchemeAscii /\ stream' = StreamMarkFatal stream 1)
          \/ (currentScheme stream = DmtxSchemeAscii
              /\ exists n, (n <= fuel)%nat
                   /\ chunks n stream targetScheme requestedSizeIdx = Done stream'
                   /\ (forall k, (k < n)%nat ->
                         still_encoding k stream targetScheme requestedSizeIdx)))
  | AssertFailed =>
      currentScheme stream = DmtxSchemeAscii
      /\ exists n, (n < fuel)%nat
           /\ still_encoding n stream targetScheme requestedSizeIdx
           /\ chunks (S n) stream targetScheme requestedSizeIdx = AssertFailed
  | OutOfFuel =>
      currentScheme stream = DmtxSchemeAscii
      /\ still_encoding fuel stream targetScheme requestedSizeIdx
  end
  /\ (forall n stream_n,
        chunks n stream targetScheme requestedSizeIdx = Done stream_n ->
        status stream_n <> DmtxStatusEncoding ->
        (n <= fuel)%nat ->
        exists passFail stream',
          EncodeSingleScheme2 fuel stream targetScheme requestedSizeIdx
            = Done (passFail, stream')).
Proof.
  unfold EncodeSingleScheme2.
  destruct (scheme_eqb (currentScheme stream) DmtxSchemeAscii) eqn:Hascii; cbn.
  - apply scheme_eqb_eq in Hascii.
    pose proof (EncodeSingleScheme2_loop_spec fuel stream targetScheme requestedSizeIdx) as Hspec.
    split.
    + destruct (EncodeSingleScheme2_loop fuel stream targetScheme requestedSizeIdx)
        as [stream'| |].
      * destruct Hspec as (Hexit & Hrun).
        destruct (status_eqb (status stream') DmtxStatusComplete) eqn:Hc; cbn.
        -- apply status_eqb_eq in Hc.
           destruct (StreamInputHasNext stream') eqn:Hnext; cbn;
             (split; [|split; [|split; [assumption|right; split; assumption]]]);
             intuition congruence.
        -- apply status_eqb_neq in Hc.
           (split; [|split; [|split; [assumption|right; split; assumption]]]);
             intuition congruence.
      * split; assumption.
      * split; assumption.
    + intros n stream_n Hrun Hexit Hfuel.
      destruct (EncodeSingleScheme2_loop_returns fuel _ _ _ n stream_n Hrun Hexit Hfuel)
        as (stream' & ->).
      destruct (negb (status_eqb (status stream') DmtxStatusComplete)
                || StreamInputHasNext stream'); eauto.
  - apply scheme_eqb_neq in Hascii. split.
    + split; [|split; [|split; [|left; split; [assumption|reflexivity]]]].
      * split; [discriminate|]. cbn. intros [Hc _]. discriminate Hc.
      * split; [|reflexivity]. cbn. intros _ [Hc _]. discriminate Hc.
      * cbn. discriminate.
    + intros. eauto.
Qed.

(** C6. When the stream's current scheme is not ASCII, [EncodeSingleScheme2]
    marks the stream Fatal and returns DmtxFail; nothing is encoded: whatever
    the fuel and the collaborators, the stream returned is the one given with
    only its status and reason changed. *)
Theorem EncodeSingleScheme2_not_ascii (fuel : nat) (stream : DmtxEncodeStream)
    (targetScheme : DmtxScheme) (requestedSizeIdx : Z) :
  currentScheme stream <> DmtxSchemeAscii ->
  EncodeSingleScheme2 fuel stream targetScheme requestedSizeIdx
    = Done (DmtxFail, StreamMarkFatal stream 1)
  /\ status (StreamMarkFatal stream 1) = DmtxStatusFatal
  /\ output (StreamMarkFatal stream 1) = output stream
  /\ inputNext (StreamMarkFatal stream 1) = inputNext stream
  /\ currentScheme (StreamMarkFatal stream 1) = currentScheme stream
  /\ outputChainWordCount (StreamMarkFatal stream 1) = outputChainWordCount stream
  /\ outputChainValueCount (StreamMarkFatal stream 1) = outputChainValueCount stream.
Proof.
  intros Hneq. apply scheme_eqb_neq in Hneq.
  unfold EncodeSingleScheme2. rewrite Hneq. cbn. repeat split.
Qed.

End SingleScheme.

(** ** The dispatcher at work

    Runs over the primitives and the ASCII sub-encoder modelled after the
    specification. *)

(** Scenario 1 of the specification: "123456" in ASCII is three digit-pair
    codewords, which fill a 10x10 symbol exactly. *)
Example scenario_123456 :
  run_EncodeSingleScheme2 3 (StreamInit [49; 50; 51; 52; 53; 54]) DmtxSchemeAscii DmtxUndefined
  = Done (DmtxPass,
          mkStream DmtxSchemeAscii 6 3 3 None DmtxStatusComplete
                   [49; 50; 51; 52; 53; 54] [142; 164; 186]).
Proof. vm_compute. reflexivity. Qed.

(** Scenario 2: "A1B2" is [66; 50; 67; 51], then one pad. *)
Example scenario_A1B2 :
  run_EncodeSingleScheme2 4 (StreamInit [65; 49; 66; 50]) DmtxSchemeAscii DmtxUndefined
  = Done (DmtxPass,
          mkStream DmtxSchemeAscii 4 5 5 None DmtxStatusComplete
                   [65; 49; 66; 50] [66; 50; 67; 51; 129]).
Proof. vm_compute. reflexivity. Qed.

(** Scenario 4: the byte 0xA0 is the upper shift followed by 33, then a
    pad. *)
Example scenario_A0 :
  run_EncodeSingleScheme2 1 (StreamInit [160]) DmtxSchemeAscii DmtxUndefined
  = Done (DmtxPass,
          mkStream DmtxSchemeAscii 1 3 3 None DmtxStatusComplete [160] [235; 33; 129]).
Proof. vm_compute. reflexivity. Qed.

(** Six letters take six calls of [EncodeNextChunk]: five are not enough. *)
Example six_letters_out_of_fuel :
  run_EncodeSingleScheme2 5 (StreamInit [65; 66; 67; 68; 69; 70]) DmtxSchemeAscii DmtxUndefined
  = OutOfFuel.
Proof. vm_compute. reflexivity. Qed.

(** The second pad is randomized: 129 at position 7, then
    [Randomize253State2 129 8] = 56. *)
Example six_letters_padded :
  run_EncodeSingleScheme2 6 (StreamInit [65; 66; 67; 68; 69; 70]) DmtxSchemeAscii DmtxUndefined
  = Done (DmtxPass,
          mkStream DmtxSchemeAscii 6 8 8 None DmtxStatusComplete
                   [65; 66; 67; 68; 69; 70] [66; 67; 68; 69; 70; 71; 129; 56]).
Proof. vm_compute. reflexivity. Qed.

(** A target the dispatcher has no case for: the scheme change goes through
    and the dispatch marks the stream Fatal. *)
Example unrecognized_target_is_fatal :
  run_EncodeSingleScheme2 1 (StreamInit [65]) DmtxSchemeAutoFast DmtxUndefined
  = Done (DmtxFail,
          mkStream DmtxSchemeAutoFast 0 0 0 (Some 1) DmtxStatusFatal [65] []).
Proof. vm_compute. reflexivity. Qed.

(** A chunk asked for in a scheme outside the six, with no change of scheme
    to make: the dispatch marks the stream Fatal. *)
Example unrecognized_current_is_fatal :
  run_EncodeNextChunk (set_currentScheme DmtxSchemeAutoBest (StreamInit [65]))
                      DmtxSchemeAutoBest DmtxUndefined
  = Done (mkStream DmtxSchemeAutoBest 0 0 0 (Some 1) DmtxStatusFatal [65] []).
Proof. vm_compute. reflexivity. Qed.

(** A scheme change away from a scheme outside the six fails the assertion
    of source lines 190-191. *)
Example unrecognized_current_fails_assert :
  run_EncodeChangeScheme (set_currentScheme DmtxSchemeAutoBest (StreamInit [65]))
                         DmtxSchemeAscii DmtxUnlatchExplicit
  = AssertFailed.
Proof. vm_compute. reflexivity. Qed.

(** The codewords a scheme change writes. *)
Example change_C40_to_Text_explicit :
  run_EncodeChangeScheme (set_currentScheme DmtxSchemeC40 (StreamInit [65]))
                         DmtxSchemeText DmtxUnlatchExplicit
  = Done (mkStream DmtxSchemeText 0 0 0 None DmtxStatusEncoding [65] [254; 239]).
Proof. vm_compute. reflexivity. Qed.

Example change_C40_to_Text_implicit :
  run_EncodeChangeScheme (set_currentScheme DmtxSchemeC40 (StreamInit [65]))
                         DmtxSchemeText DmtxUnlatchImplicit
  = Done (mkStream DmtxSchemeText 0 0 0 None DmtxStatusEncoding [65] [239]).
Proof. vm_compute. reflexivity. Qed.

(** The six bits of 31, most significant first, zero-filled to the byte:
    01111100. *)
Example change_Edifact_to_Ascii_explicit :
  run_EncodeChangeScheme (set_currentScheme DmtxSchemeEdifact (StreamInit [65]))
                         DmtxSchemeAscii DmtxUnlatchExplicit
  = Done (mkStream DmtxSchemeAscii 0 0 0 None DmtxStatusEncoding [65] [124]).
Proof. vm_compute. reflexivity. Qed.

Example change_Base256_to_X12 :
  run_EncodeChangeScheme (set_currentScheme DmtxSchemeBase256 (StreamInit [65]))
                         DmtxSchemeX12 DmtxUnlatchExplicit
  = Done (mkStream DmtxSchemeX12 0 0 0 None DmtxStatusEncoding [65] [238]).
Proof. vm_compute. reflexivity. Qed.

Example change_Ascii_to_Edifact :
  run_EncodeChangeScheme (StreamInit [65]) DmtxSchemeEdifact DmtxUnlatchExplicit
  = Done (mkStream DmtxSchemeEdifact 0 0 0 None DmtxStatusEncoding [65] [240]).
Proof. vm_compute. reflexivity. Qed.

(** The latch to Base 256 is followed by the header byte of an empty chain,
    [Randomize255State2 0 2] = 44. *)
Example change_Ascii_to_Base256 :
  run_EncodeChangeScheme (StreamInit [65]) DmtxSchemeBase256 DmtxUnlatchExplicit
  = Done (mkStream DmtxSchemeBase256 0 0 0 None DmtxStatusEncoding [65] [231; 44]).
Proof. vm_compute. reflexivity. Qed.


(** Over the primitives modelled after the specification a scheme change
    out of ASCII, C40, Text, X12 or Base 256 always completes, and appends
    exactly the unlatch, latch and header codewords. *)
Lemma run_EncodeChangeScheme_output (stream : DmtxEncodeStream) (targetScheme : DmtxScheme)
    (unlatchType : Z) :
  status stream = DmtxStatusEncoding ->
  currentScheme stream <> targetScheme ->
  recognized (currentScheme stream) = true ->
  currentScheme stream <> DmtxSchemeEdifact ->
  exists stream',
    run_EncodeChangeScheme stream targetScheme unlatchType = Done stream'
    /\ status stream' = DmtxStatusEncoding
    /\ currentScheme stream' = targetScheme
    /\ output stream'
       = (output stream
          ++ unlatch_codewords (currentScheme stream) unlatchType
          ++ latch_codewords targetScheme)
         ++ header_codewords targetScheme
              (output stream
               ++ unlatch_codewords (currentScheme stream) unlatchType
               ++ latch_codewords targetScheme).
Proof.
  intros Hst Hneq Hrec Hnot_edifact.
  unfold run_EncodeChangeScheme.
  rewrite (@EncodeChangeScheme_change_scheme SpecEmitters) by assumption.
  eexists. split; [reflexivity|].
  unfold change_scheme, while_encoding, emit_unlatch, emit_latch, write_initial_header,
    start_chain, unlatch_codewords, latch_codewords, header_codewords, unlatch_required,
    latch_codeword.
  cbn [SpecEmitters EncodeUnlatchCTX EncodeValueEdifact EncodeValueAscii
       UpdateBase256ChainHeader].
  unfold spec_EncodeUnlatchCTX, spec_EncodeValueAscii, spec_UpdateBase256ChainHeader.
  generalize Randomize255State2. intros randomize.
  destruct (currentScheme stream) eqn:Hcur; try discriminate Hrec; try congruence;
    destruct (unlatchType =? DmtxUnlatchExplicit);
    destruct targetScheme; try congruence; cbn;
    rewrite ?Hcur; cbn; rewrite ?Hst; cbn;
    rewrite <- ?app_assoc; cbn; rewrite ?app_nil_r; repeat split;
    first [reflexivity | assumption].
Qed.

(** ** Instances of the theorems with hypotheses *)

Lemma EncodeChangeScheme_emits_witness :
  run_EncodeChangeScheme (set_currentScheme DmtxSchemeC40 (StreamInit [65]))
                         DmtxSchemeText DmtxUnlatchExplicit
  = Done (@change_scheme SpecEmitters (set_currentScheme DmtxSchemeC40 (StreamInit [65]))
                         DmtxSchemeText DmtxUnlatchExplicit).
Proof.
  refine (proj1 (@EncodeChangeScheme_emits SpecEmitters
                   (set_currentScheme DmtxSchemeC40 (StreamInit [65]))
                   DmtxSchemeText DmtxUnlatchExplicit _ _ _)).
  - reflexivity.
  - discriminate.
  - reflexivity.
Defined.


Lemma EncodeChangeScheme_same_scheme_witness :
  run_EncodeChangeScheme (set_currentScheme DmtxSchemeC40 (StreamInit [65]))
                         DmtxSchemeC40 DmtxUnlatchExplicit
  = Done (set_currentScheme DmtxSchemeC40 (StreamInit [65])).
Proof.
  refine (@EncodeChangeScheme_same_scheme SpecEmitters
            (set_currentScheme DmtxSchemeC40 (StreamInit [65]))
            DmtxSchemeC40 DmtxUnlatchExplicit _).
  reflexivity.
Defined.

Lemma EncodeSingleScheme2_not_ascii_witness :
  run_EncodeSingleScheme2 0 (set_currentScheme DmtxSchemeC40 (StreamInit [65]))
                          DmtxSchemeC40 DmtxUndefined
  = Done (DmtxFail, StreamMarkFatal (set_currentScheme DmtxSchemeC40 (StreamInit [65])) 1).
Proof.
  refine (proj1 (@EncodeSingleScheme2_not_ascii SpecEmitters AsciiSubEncoders 0
                   (set_currentScheme DmtxSchemeC40 (StreamInit [65]))
                   DmtxSchemeC40 DmtxUndefined _)).
  discriminate.
Defined.

(* ===================================================================== *)
(** * Part III: further properties of the code                             *)
(* ===================================================================== *)

(** ** The randomization functions at a fixed position *)

(** The pseudo-random number of [Randomize255State2], at any [int] position,
    overflow included. *)
Lemma pseudoRandom255_bounds (p : Z) :
  -253 <= int_add (int_rem (int_mul 149 p) 255) 1 <= 255.
Proof.
  unfold int_add, int_rem.
  pose proof (Z.rem_bound_abs (int_mul 149 p) 255 ltac:(lia)) as Hrem.
  rewrite int_wrap_small; unfold int_min, int_max; lia.
Qed.

Lemma Randomize255State2_any_position (v p : Z) :
  0 <= v <= 255 ->
  Randomize255State2 v p = (v + int_add (int_rem (int_mul 149 p) 255) 1) mod 256.
Proof.
  intros Hv. unfold Randomize255State2.
  pose proof (pseudoRandom255_bounds p) as Hpr.
  set (pr := int_add (int_rem (int_mul 149 p) 255) 1) in *.
  cbv zeta.
  replace (int_add v pr) with (v + pr)
    by (unfold int_add; rewrite int_wrap_small; unfold int_min, int_max; lia).
  unfold int_sub, to_DmtxByte.
  destruct (Z.leb_spec (v + pr) 255) as [Hle|Hgt]; [reflexivity|].
  rewrite int_wrap_small by (unfold int_min, int_max; lia).
  replace (v + pr) with ((v + pr - 256) + 1 * 256) at 2 by lia.
  rewrite Z.mod_add by lia. reflexivity.
Qed.

(** X1. At every [int] position, overflow of the product included,
    [Randomize255State2] is a bijection of the bytes: two different bytes are
    never randomized to the same byte, and every byte is the randomization of
    some byte. *)
Theorem Randomize255State2_bijective (p : Z) :
  (forall v1 v2, 0 <= v1 <= 255 -> 0 <= v2 <= 255 ->
     Randomize255State2 v1 p = Randomize255State2 v2 p -> v1 = v2)
  /\ (forall r, 0 <= r <= 255 ->
        exists v, 0 <= v <= 255 /\ Randomize255State2 v p = r).
Proof.
  pose proof (pseudoRandom255_bounds p) as Hpr.
  split.
  - intros v1 v2 H1 H2.
    rewrite !Randomize255State2_any_position by assumption.
    set (pr := int_add (int_rem (int_mul 149 p) 255) 1) in *.
    intros Heq.
    assert (Hd : (v1 - v2) mod 256 = 0).
    { replace (v1 - v2) with ((v1 + pr) - (v2 + pr)) by lia.
      rewrite Zminus_mod, Heq, Z.sub_diag. reflexivity. }
    apply Z.mod_divide in Hd; [|lia]. destruct Hd as [k Hk]. lia.
  - intros r Hr.
    set (pr := int_add (int_rem (int_mul 149 p) 255) 1) in *.
    exists ((r - pr) mod 256).
    assert (Hb : 0 <= (r - pr) mod 256 < 256) by (apply Z.mod_pos_bound; lia).
    split; [lia|].
    rewrite Randomize255State2_any_position by lia. fold pr.
    rewrite Zplus_mod_idemp_l. replace (r - pr + pr) with r by lia.
    apply Z.mod_small; lia.
Qed.

(** X2. At a position whose product with 149 is representable,
    [Randomize253State2] maps the values 1..254 into 1..254 and never maps two
    of them to the same value: it permutes the codewords 1..254. *)
Theorem Randomize253State2_permutes (p : Z) :
  0 <= p -> 149 * p <= int_max ->
  (forall v, 1 <= v <= 254 ->
     exists r, Randomize253State2 v p = Done r /\ 1 <= r <= 254)
  /\ (forall v1 v2, 1 <= v1 <= 254 -> 1 <= v2 <= 254 ->
        Randomize253State2 v1 p = Randomize253State2 v2 p -> v1 = v2).
Proof.
  intros Hp Hmax.
  destruct (pseudoRandom_in_range 253 p) as [_ Hb]; try lia.
  split.
  - intros v Hv. exists (Randomize253State2_tmp v p). split.
    + apply Randomize253State2_in_range; lia.
    + apply Randomize253State2_tmp_bounds; lia.
  - intros v1 v2 H1 H2.
    rewrite !Randomize253State2_in_range by lia.
    rewrite !Randomize253State2_tmp_in_range by lia.
    set (pr := (149 * p) mod 253 + 1) in *.
    intros Heq. injection Heq as Heq. revert Heq.
    destruct (Z.gtb_spec (v1 + pr) 254); destruct (Z.gtb_spec (v2 + pr) 254); lia.
Qed.

Lemma Randomize253State2_permutes_witness :
  (forall v, 1 <= v <= 254 ->
     exists r, Randomize253State2 v 28 = Done r /\ 1 <= r <= 254)
  /\ (forall v1 v2, 1 <= v1 <= 254 -> 1 <= v2 <= 254 ->
        Randomize253State2 v1 28 = Randomize253State2 v2 28 -> v1 = v2).
Proof.
  apply (Randomize253State2_permutes 28); unfold int_max; lia.
Defined.

(** X3. The byte 0 and the byte 254 are randomized to the same value by
    [Randomize253State2], at every position whose product with 149 is
    representable: on the bytes as a whole the function is not injective. *)
Theorem Randomize253State2_collision (p : Z) :
  0 <= p -> 149 * p <= int_max ->
  Randomize253State2 0 p = Randomize253State2 254 p
  /\ Randomize253State2 0 p = Done ((149 * p) mod 253 + 1).
Proof.
  intros Hp Hmax.
  destruct (pseudoRandom_in_range 253 p) as [_ Hb]; try lia.
  rewrite !Randomize253State2_in_range by lia.
  rewrite !Randomize253State2_tmp_in_range by lia.
  set (pr := (149 * p) mod 253 + 1) in *.
  destruct (Z.gtb_spec (0 + pr) 254); destruct (Z.gtb_spec (254 + pr) 254);
    try lia; split; f_equal; lia.
Qed.

Lemma Randomize253State2_collision_witness :
  Randomize253State2 0 5 = Randomize253State2 254 5
  /\ Randomize253State2 0 5 = Done ((149 * 5) mod 253 + 1).
Proof.
  apply (Randomize253State2_collision 5); unfold int_max; lia.
Defined.

(** X4. Randomization never leaves a byte as it was: at a position whose
    product with 149 is representable, [Randomize255State2 v p] differs from
    [v], and so does the byte [Randomize253State2 v p] yields. *)
Theorem Randomize_changes_value (v p : Z) :
  0 <= v <= 255 -> 0 <= p -> 149 * p <= int_max ->
  Randomize255State2 v p <> v
  /\ Randomize253State2 v p <> Done v.
Proof.
  intros Hv Hp Hmax. split.
  - rewrite Randomize255State2_in_range by lia.
    destruct (pseudoRandom_in_range 255 p) as [_ Hb]; try lia.
    set (pr := (149 * p) mod 255 + 1) in *.
    intros Heq.
    assert (Hd : (v + pr - v) mod 256 = 0).
    { rewrite Zminus_mod, Heq, Zminus_mod_idemp_r, Z.sub_diag. reflexivity. }
    replace (v + pr - v) with pr in Hd by lia.
    rewrite Z.mod_small in Hd; lia.
  - rewrite Randomize253State2_in_range by lia.
    rewrite Randomize253State2_tmp_in_range by lia.
    destruct (pseudoRandom_in_range 253 p) as [_ Hb]; try lia.
    set (pr := (149 * p) mod 253 + 1) in *.
    intros Heq. injection Heq as Heq. revert Heq.
    destruct (Z.gtb_spec (v + pr) 254); lia.
Qed.

Lemma Randomize_changes_value_witness :
  Randomize255State2 129 7 <> 129
  /\ Randomize253State2 129 7 <> Done 129.
Proof.
  apply (Randomize_changes_value 129 7); unfold int_max; lia.
Defined.

(** X5. The randomization depends on the position only through its
    remainder: moving 255 positions on leaves [Randomize255State2] unchanged,
    and moving 253 positions on leaves [Randomize253State2] unchanged, as long
    as the products with 149 are representable. *)
Theorem Randomize_periodic (v p : Z) :
  0 <= v <= 255 -> 0 <= p -> 149 * (p + 255) <= int_max ->
  Randomize255State2 v (p + 255) = Randomize255State2 v p
  /\ Randomize253State2 v (p + 253) = Randomize253State2 v p.
Proof.
  intros Hv Hp Hmax. split.
  - rewrite !Randomize255State2_in_range by lia.
    replace (149 * (p + 255)) with (149 * p + 149 * 255) by lia.
    rewrite Z.mod_add by lia. reflexivity.
  - rewrite !Randomize253State2_in_range by lia.
    rewrite !Randomize253State2_tmp_in_range by lia.
    replace (149 * (p + 253)) with (149 * p + 149 * 253) by lia.
    rewrite Z.mod_add by lia. reflexivity.
Qed.

Lemma Randomize_periodic_witness :
  Randomize255State2 65 (3 + 255) = Randomize255State2 65 3
  /\ Randomize253State2 65 (3 + 253) = Randomize253State2 65 3.
Proof.
  apply (Randomize_periodic 65 3); unfold int_max; lia.
Defined.

(** ** Remaining capacity *)

(** X6. For an undefined size [GetRemainingSymbolCapacity] returns
    [DmtxUndefined]; for a defined size it returns the capacity less the
    output length, which is zero exactly at a perfect fit and is
    [DmtxUndefined] again exactly when the output is one word longer than
    the capacity: the sentinel does not tell the two cases apart. *)
Theorem GetRemainingSymbolCapacity_sentinel (dmtxGetSymbolAttribute : Z -> Z -> Z)
    (DmtxSymAttribSymbolDataWords outputLength sizeIdx : Z) :
  sizeIdx <> DmtxUndefined ->
  0 <= outputLength <= int_max ->
  0 <= dmtxGetSymbolAttribute DmtxSymAttribSymbolDataWords sizeIdx <= int_max ->
  GetRemainingSymbolCapacity dmtxGetSymbolAttribute DmtxSymAttribSymbolDataWords
    outputLength DmtxUndefined = DmtxUndefined
  /\ GetRemainingSymbolCapacity dmtxGetSymbolAttribute DmtxSymAttribSymbolDataWords
       outputLength sizeIdx
     = dmtxGetSymbolAttribute DmtxSymAttribSymbolDataWords sizeIdx - outputLength
  /\ (GetRemainingSymbolCapacity dmtxGetSymbolAttribute DmtxSymAttribSymbolDataWords
        outputLength sizeIdx = 0
      <-> outputLength = dmtxGetSymbolAttribute DmtxSymAttribSymbolDataWords sizeIdx)
  /\ (GetRemainingSymbolCapacity dmtxGetSymbolAttribute DmtxSymAttribSymbolDataWords
        outputLength sizeIdx = DmtxUndefined
      <-> outputLength = dmtxGetSymbolAttribute DmtxSymAttribSymbolDataWords sizeIdx + 1).
Proof.
  intros Hdef Hlen Hcap.
  unfold GetRemainingSymbolCapacity.
  split; [reflexivity|].
  destruct (Z.eqb_spec sizeIdx DmtxUndefined) as [Heq|_]; [contradiction|].
  set (cap := dmtxGetSymbolAttribute DmtxSymAttribSymbolDataWords sizeIdx) in *.
  unfold int_sub. rewrite int_wrap_small by (unfold int_min, int_max in *; lia).
  unfold DmtxUndefined. repeat split; lia.
Qed.

Lemma GetRemainingSymbolCapacity_sentinel_witness :
  GetRemainingSymbolCapacity (fun _ idx => capacity idx) 0 4 DmtxUndefined = DmtxUndefined
  /\ GetRemainingSymbolCapacity (fun _ idx => capacity idx) 0 4 0 = capacity 0 - 4
  /\ (GetRemainingSymbolCapacity (fun _ idx => capacity idx) 0 4 0 = 0 <-> 4 = capacity 0)
  /\ (GetRemainingSymbolCapacity (fun _ idx => capacity idx) 0 4 0 = DmtxUndefined
      <-> 4 = capacity 0 + 1).
Proof.
  apply (GetRemainingSymbolCapacity_sentinel (fun _ idx => capacity idx) 0 4 0).
  - discriminate.
  - unfold int_max. lia.
  - vm_compute. split; discriminate.
Defined.

(** ** The scheme change, whatever the emitters *)

Section ChangeSchemeSafety.

Context {E : Emitters}.

Lemma EncodeChangeScheme_same_scheme_eq (stream : DmtxEncodeStream)
    (targetScheme : DmtxScheme) (unlatchType : Z) :
  currentScheme stream = targetScheme ->
  EncodeChangeScheme stream targetScheme unlatchType = Done stream.
Proof.
  intros Hsame. unfold EncodeChangeScheme, void_body, seq_stmt.
  rewrite Hsame, scheme_eqb_refl. reflexivity.
Qed.

Lemma EncodeChangeScheme_recognized_returns (stream : DmtxEncodeStream)
    (targetScheme : DmtxScheme) (unlatchType : Z) :
  recognized (currentScheme stream) = true ->
  exists stream', EncodeChangeScheme stream targetScheme unlatchType = Done stream'.
Proof.
  intros Hrec.
  unfold EncodeChangeScheme, void_body, seq_stmt, when, call, CHKERR, CHKSCHEME, c_assert.
  destruct (scheme_eqb (currentScheme stream) targetScheme); [eexists; reflexivity|].
  destruct (currentScheme stream) eqn:Hcur; try discriminate Hrec;
    destruct (unlatchType =? DmtxUnlatchExplicit);
    destruct targetScheme; cbn; try rewrite Hcur; cbn;
    case_status; eexists; reflexivity.
Qed.

(** X7. Whatever the emitters do, [EncodeChangeScheme] fails its assertion
    exactly when the stream's current scheme differs from the target and is
    none of the six schemes; in every other case it returns. *)
Theorem EncodeChangeScheme_assert_iff (stream : DmtxEncodeStream)
    (targetScheme : DmtxScheme) (unlatchType : Z) :
  (EncodeChangeScheme stream targetScheme unlatchType = AssertFailed
   <-> currentScheme stream <> targetScheme /\ recognized (currentScheme stream) = false)
  /\ (~ (currentScheme stream <> targetScheme /\ recognized (currentScheme stream) = false)
      -> exists stream', EncodeChangeScheme stream targetScheme unlatchType = Done stream').
Proof.
  assert (Hret : ~ (currentScheme stream <> targetScheme
                    /\ recognized (currentScheme stream) = false)
                 -> exists stream',
                      EncodeChangeScheme stream targetScheme unlatchType = Done stream').
  { intros Hnot.
    destruct (scheme_eqb (currentScheme stream) targetScheme) eqn:Hsame.
    - apply scheme_eqb_eq in Hsame. exists stream.
      apply EncodeChangeScheme_same_scheme_eq. assumption.
    - apply scheme_eqb_neq in Hsame.
      apply EncodeChangeScheme_recognized_returns.
      destruct (recognized (currentScheme stream)); [reflexivity|].
      exfalso. apply Hnot. split; [assumption|reflexivity]. }
  split; [|exact Hret].
  split.
  - intros Hfail.
    destruct (scheme_eqb (currentScheme stream) targetScheme) eqn:Hsame.
    + exfalso. destruct Hret as [s' Hs'].
      * intros [Hneq _]. apply scheme_eqb_eq in Hsame. contradiction.
      * congruence.
    + apply scheme_eqb_neq in Hsame. split; [assumption|].
      destruct (recognized (currentScheme stream)) eqn:Hrec; [|reflexivity].
      exfalso. destruct Hret as [s' Hs'].
      * intros [_ Hfalse]. discriminate Hfalse.
      * congruence.
  - intros [Hneq Hrec]. apply EncodeChangeScheme_unrecognized; assumption.
Qed.

End ChangeSchemeSafety.

(** ** The scheme change over emitters that accept their own scheme *)





(** ** The encoding loop, further *)

Section SingleSchemeMore.

Context {E : Emitters} {X : SubEncoders}.

Lemma EncodeSingleScheme2_loop_not_encoding (fuel : nat) (stream : DmtxEncodeStream)
    (targetScheme : DmtxScheme) (requestedSizeIdx : Z) :
  status stream <> DmtxStatusEncoding ->
  EncodeSingleScheme2_loop fuel stream targetScheme requestedSizeIdx = Done stream.
Proof.
  intros Hst. apply status_eqb_neq in Hst.
  destruct fuel; [rewrite EncodeSingleScheme2_loop_O|rewrite EncodeSingleScheme2_loop_S];
    rewrite Hst; reflexivity.
Qed.

(** X9. On a stream in scheme ASCII whose status is no longer Encoding,
    [EncodeSingleScheme2] encodes nothing, whatever the fuel: it returns the
    stream as given, with DmtxPass when the status is Complete and no input
    is left, and DmtxFail otherwise. *)
Theorem EncodeSingleScheme2_not_encoding (fuel : nat) (stream : DmtxEncodeStream)
    (targetScheme : DmtxScheme) (requestedSizeIdx : Z) :
  currentScheme stream = DmtxSchemeAscii ->
  status stream <> DmtxStatusEncoding ->
  EncodeSingleScheme2 fuel stream targetScheme requestedSizeIdx
    = Done (if status_eqb (status stream) DmtxStatusComplete
               && negb (StreamInputHasNext stream)
            then DmtxPass else DmtxFail,
            stream).
Proof.
  intros Hascii Hst. unfold EncodeSingleScheme2.
  rewrite Hascii. cbn [scheme_eqb negb].
  rewrite EncodeSingleScheme2_loop_not_encoding by assumption.
  destruct (status_eqb (status stream) DmtxStatusComplete);
    destruct (StreamInputHasNext stream); reflexivity.
Qed.

(** X10. A target scheme outside the six is refused after one call of
    [EncodeNextChunk], whatever the collaborators: from a stream in scheme
    ASCII and status Encoding, [EncodeSingleScheme2] returns DmtxFail with the
    stream marked Fatal, the target as current scheme, the chain counters
    reset, and the output and the input cursor untouched. *)
Theorem EncodeSingleScheme2_unrecognized_target (fuel : nat) (stream : DmtxEncodeStream)
    (targetScheme : DmtxScheme) (requestedSizeIdx : Z) :
  currentScheme stream = DmtxSchemeAscii ->
  status stream = DmtxStatusEncoding ->
  recognized targetScheme = false ->
  EncodeSingleScheme2 (S fuel) stream targetScheme requestedSizeIdx
    = Done (DmtxFail, StreamMarkFatal (start_chain targetScheme stream) 1)
  /\ output (StreamMarkFatal (start_chain targetScheme stream) 1) = output stream
  /\ inputNext (StreamMarkFatal (start_chain targetScheme stream) 1) = inputNext stream.
Proof.
  intros Hascii Hst Hrec. split; [|split; reflexivity].
  assert (Hchunk : EncodeNextChunk stream targetScheme requestedSizeIdx
                   = Done (StreamMarkFatal (start_chain targetScheme stream) 1)).
  { rewrite EncodeNextChunk_encode_next_chunk. unfold encode_next_chunk.
    rewrite EncodeChangeScheme_change_scheme;
      [|assumption|rewrite Hascii; destruct targetScheme; discriminate
       |rewrite Hascii; reflexivity].
    unfold change_scheme, while_encoding, unlatch_required, emit_unlatch, emit_latch,
      latch_codeword, write_initial_header.
    rewrite Hascii.
    destruct targetScheme; try discriminate Hrec;
      cbn; rewrite Hst; cbn; rewrite ?Hst; cbn; reflexivity. }
  unfold EncodeSingleScheme2. rewrite Hascii. cbn [scheme_eqb negb].
  rewrite EncodeSingleScheme2_loop_S.
  apply status_eqb_eq in Hst. rewrite Hst, Hchunk.
  rewrite EncodeSingleScheme2_loop_not_encoding by (cbn; discriminate).
  reflexivity.
Qed.

Lemma EncodeSingleScheme2_loop_terminates (Inv : DmtxEncodeStream -> Prop)
    (measure : DmtxEncodeStream -> nat) (targetScheme : DmtxScheme) (requestedSizeIdx : Z) :
  chunks_make_progress E X Inv measure targetScheme requestedSizeIdx ->
  forall (fuel : nat) (stream : DmtxEncodeStream),
  Inv stream -> (measure stream < fuel)%nat ->
  exists stream',
    EncodeSingleScheme2_loop fuel stream targetScheme requestedSizeIdx = Done stream'
    /\ status stream' <> DmtxStatusEncoding.
Proof.
  intros Hprogress. induction fuel as [|fuel IH]; intros stream Hinv Hfuel; [lia|].
  rewrite EncodeSingleScheme2_loop_S.
  destruct (status_eqb (status stream) DmtxStatusEncoding) eqn:Hst.
  - apply status_eqb_eq in Hst.
    destruct (Hprogress stream Hinv Hst) as (next & Hnext & Hstep).
    rewrite Hnext.
    destruct (status_eqb (status next) DmtxStatusEncoding) eqn:Hst'.
    + apply status_eqb_eq in Hst'. destruct (Hstep Hst') as [Hinv' Hless].
      apply IH; [assumption|lia].
    + apply status_eqb_neq in Hst'. exists next. split; [|assumption].
      apply EncodeSingleScheme2_loop_not_encoding. assumption.
  - apply status_eqb_neq in Hst. exists stream. split; [reflexivity|assumption].
Qed.

(** X12. The loop terminates when every chunk makes progress: if each call
    of [EncodeNextChunk] on a stream in status Encoding returns and either
    leaves the status Encoding behind or lowers a measure, then
    [EncodeSingleScheme2] returns with any fuel above the measure of the
    stream it is given, and the stream it returns is no longer Encoding. *)
Theorem EncodeSingleScheme2_terminates (Inv : DmtxEncodeStream -> Prop)
    (measure : DmtxEncodeStream -> nat) (fuel : nat) (stream : DmtxEncodeStream)
    (targetScheme : DmtxScheme) (requestedSizeIdx : Z) :
  chunks_make_progress E X Inv measure targetScheme requestedSizeIdx ->
  Inv stream ->
  (measure stream < fuel)%nat ->
  exists passFail stream',
    EncodeSingleScheme2 fuel stream targetScheme requestedSizeIdx = Done (passFail, stream')
    /\ status stream' <> DmtxStatusEncoding.
Proof.
  intros Hprogress Hinv Hfuel. unfold EncodeSingleScheme2.
  destruct (negb (scheme_eqb (currentScheme stream) DmtxSchemeAscii)).
  - eexists. eexists. split; [reflexivity|]. cbn. discriminate.
  - destruct (EncodeSingleScheme2_loop_terminates Inv measure targetScheme requestedSizeIdx
                Hprogress fuel stream Hinv Hfuel) as (stream' & -> & Hexit).
    destruct (negb (status_eqb (status stream') DmtxStatusComplete)
              || StreamInputHasNext stream');
      eexists; eexists; (split; [reflexivity|assumption]).
Qed.

Lemma EncodeNextChunk_keeps_recognized (stream : DmtxEncodeStream)
    (targetScheme : DmtxScheme) (requestedSizeIdx : Z) :
  sub_encoders_keep_recognized X ->
  status stream = DmtxStatusEncoding ->
  recognized (currentScheme stream) = true ->
  exists stream',
    EncodeNextChunk stream targetScheme requestedSizeIdx = Done stream'
    /\ (status stream' = DmtxStatusEncoding -> recognized (currentScheme stream') = true).
Proof.
  intros Hkeep Hst Hrec.
  rewrite EncodeNextChunk_encode_next_chunk. unfold encode_next_chunk.
  destruct (scheme_eqb (currentScheme stream) targetScheme) eqn:Hsame.
  - eexists. split; [reflexivity|]. intros _. apply Hkeep. assumption.
  - apply scheme_eqb_neq in Hsame.
    rewrite EncodeChangeScheme_change_scheme by assumption.
    set (changed := change_scheme stream targetScheme DmtxUnlatchExplicit).
    destruct (status_eqb (status changed) DmtxStatusEncoding) eqn:Hst'; cbn [negb].
    + destruct (scheme_eqb (currentScheme changed) targetScheme) eqn:Hcur; cbn [negb].
      * eexists. split; [reflexivity|].
        destruct (recognized (currentScheme changed)) eqn:Hrec'.
        -- intros _. apply Hkeep. assumption.
        -- rewrite dispatch_unrecognized by assumption. cbn. discriminate.
      * eexists. split; [reflexivity|]. cbn. discriminate.
    + apply status_eqb_neq in Hst'. eexists. split; [reflexivity|]. contradiction.
Qed.

Lemma EncodeSingleScheme2_loop_no_assert (fuel : nat) :
  sub_encoders_keep_recognized X ->
  forall (stream : DmtxEncodeStream) (targetScheme : DmtxScheme) (requestedSizeIdx : Z),
  (status stream = DmtxStatusEncoding -> recognized (currentScheme stream) = true) ->
  EncodeSingleScheme2_loop fuel stream targetScheme requestedSizeIdx <> AssertFailed.
Proof.
  intros Hkeep. induction fuel as [|fuel IH]; intros stream targetScheme requestedSizeIdx Hinv.
  - rewrite EncodeSingleScheme2_loop_O.
    destruct (status_eqb (status stream) DmtxStatusEncoding); discriminate.
  - rewrite EncodeSingleScheme2_loop_S.
    destruct (status_eqb (status stream) DmtxStatusEncoding) eqn:Hst; [|discriminate].
    apply status_eqb_eq in Hst.
    destruct (EncodeNextChunk_keeps_recognized stream targetScheme requestedSizeIdx
                Hkeep Hst (Hinv Hst)) as (next & -> & Hnext).
    apply IH. assumption.
Qed.

(** X13. When the sub-encoders leave the stream in one of the six schemes,
    [EncodeSingleScheme2] never fails an assertion, whatever the stream, the
    target and the emitters: it returns, or the loop is still running when
    the fuel is spent. *)
Theorem EncodeSingleScheme2_no_assert (fuel : nat) (stream : DmtxEncodeStream)
    (targetScheme : DmtxScheme) (requestedSizeIdx : Z) :
  sub_encoders_keep_recognized X ->
  EncodeSingleScheme2 fuel stream targetScheme requestedSizeIdx = OutOfFuel
  \/ exists passFail stream',
       EncodeSingleScheme2 fuel stream targetScheme requestedSizeIdx
         = Done (passFail, stream').
Proof.
  intros Hkeep. unfold EncodeSingleScheme2.
  destruct (scheme_eqb (currentScheme stream) DmtxSchemeAscii) eqn:Hascii; cbn [negb].
  - apply scheme_eqb_eq in Hascii.
    pose proof (EncodeSingleScheme2_loop_no_assert fuel Hkeep stream targetScheme
                  requestedSizeIdx) as Hno.
    destruct (EncodeSingleScheme2_loop fuel stream targetScheme requestedSizeIdx)
      as [stream'| |].
    + right.
      destruct (negb (status_eqb (status stream') DmtxStatusComplete)
                || StreamInputHasNext stream'); eauto.
    + exfalso. apply Hno; [|reflexivity]. intros _. rewrite Hascii. reflexivity.
    + left. reflexivity.
  - right. eauto.
Qed.

End SingleSchemeMore.

(** ** The ASCII sub-encoder modelled after the specification

    Facts used to instantiate the theorems above. *)

Lemma spec_EncodeValueAscii_frame (s : DmtxEncodeStream) (v : Z) :
  currentScheme (spec_EncodeValueAscii s v) = currentScheme s
  /\ inputNext (spec_EncodeValueAscii s v) = inputNext s
  /\ input (spec_EncodeValueAscii s v) = input s.
Proof.
  unfold spec_EncodeValueAscii.
  destruct (negb (scheme_eqb (currentScheme s) DmtxSchemeAscii)); repeat split.
Qed.

Lemma spec_EncodeNextChunkAscii_reads (s : DmtxEncodeStream) :
  currentScheme (spec_EncodeNextChunkAscii s) = currentScheme s
  /\ input (spec_EncodeNextChunkAscii s) = input s
  /\ ((input_at s 0 = None /\ spec_EncodeNextChunkAscii s = s)
      \/ inputNext s < inputNext (spec_EncodeNextChunkAscii s)).
Proof.
  assert (Hone : forall k v,
            currentScheme (spec_EncodeValueAscii (advance k s) v) = currentScheme s
            /\ input (spec_EncodeValueAscii (advance k s) v) = input s
            /\ inputNext (spec_EncodeValueAscii (advance k s) v) = inputNext s + k).
  { intros k v. destruct (spec_EncodeValueAscii_frame (advance k s) v) as (H1 & H2 & H3).
    rewrite H1, H2, H3. repeat split. }
  assert (Htwo : forall k v w,
            currentScheme (spec_EncodeValueAscii (spec_EncodeValueAscii (advance k s) v) w)
              = currentScheme s
            /\ input (spec_EncodeValueAscii (spec_EncodeValueAscii (advance k s) v) w)
               = input s
            /\ inputNext (spec_EncodeValueAscii (spec_EncodeValueAscii (advance k s) v) w)
               = inputNext s + k).
  { intros k v w.
    destruct (spec_EncodeValueAscii_frame (spec_EncodeValueAscii (advance k s) v) w)
      as (H1 & H2 & H3).
    destruct (Hone k v) as (H4 & H5 & H6).
    rewrite H1, H2, H3, H4, H5, H6. repeat split. }
  unfold spec_EncodeNextChunkAscii, while_encoding.
  destruct (input_at s 0) as [v0|]; [|repeat split; left; split; reflexivity].
  assert (Hsingle :
    forall c,
      c = (if v0 <? 128 then spec_EncodeValueAscii (advance 1 s) (v0 + 1)
           else if status_eqb
                     (status (spec_EncodeValueAscii (advance 1 s) DmtxValueAsciiUpperShift))
                     DmtxStatusEncoding
                then spec_EncodeValueAscii
                       (spec_EncodeValueAscii (advance 1 s) DmtxValueAsciiUpperShift)
                       (v0 - 128 + 1)
                else spec_EncodeValueAscii (advance 1 s) DmtxValueAsciiUpperShift) ->
      currentScheme c = currentScheme s /\ input c = input s
      /\ inputNext c = inputNext s + 1).
  { intros c ->.
    destruct (v0 <? 128); [apply Hone|].
    destruct (status_eqb _ _); [apply Htwo|apply Hone]. }
  destruct (input_at s 1) as [v1|].
  - destruct (is_digit v0 && is_digit v1).
    + destruct (Hone 2 (10 * (v0 - 48) + (v1 - 48) + 130)) as (H1 & H2 & H3).
      repeat split; [assumption|assumption|]. right. lia.
    + destruct (Hsingle _ eq_refl) as (H1 & H2 & H3).
      repeat split; [assumption|assumption|]. right. lia.
  - destruct (Hsingle _ eq_refl) as (H1 & H2 & H3).
    repeat split; [assumption|assumption|]. right. lia.
Qed.

Lemma pad_remaining_scheme (n : nat) :
  forall (first : bool) (s : DmtxEncodeStream),
  currentScheme (pad_remaining n first s) = currentScheme s.
Proof.
  induction n as [|n IH]; intros first s; [reflexivity|].
  cbn [pad_remaining]. destruct first.
  - rewrite IH. apply spec_EncodeValueAscii_frame.
  - destruct (Randomize253State2 DmtxValueAsciiPad (Z.of_nat (length (output s)) + 1));
      try reflexivity.
    rewrite IH. apply spec_EncodeValueAscii_frame.
Qed.

Lemma StreamMarkComplete_not_encoding (s : DmtxEncodeStream) :
  status (StreamMarkComplete s) <> DmtxStatusEncoding.
Proof.
  unfold StreamMarkComplete.
  destruct (status_eqb (status s) DmtxStatusEncoding) eqn:Hst.
  - cbn. discriminate.
  - apply status_eqb_neq. assumption.
Qed.

Lemma StreamMarkComplete_scheme (s : DmtxEncodeStream) :
  currentScheme (StreamMarkComplete s) = currentScheme s.
Proof.
  unfold StreamMarkComplete.
  destruct (status_eqb (status s) DmtxStatusEncoding); reflexivity.
Qed.

Lemma spec_CompleteIfDoneAscii_done (s : DmtxEncodeStream) (requestedSizeIdx : Z) :
  currentScheme (spec_CompleteIfDoneAscii s requestedSizeIdx) = currentScheme s
  /\ (StreamInputHasNext s = true -> spec_CompleteIfDoneAscii s requestedSizeIdx = s)
  /\ (StreamInputHasNext s = false ->
      status (spec_CompleteIfDoneAscii s requestedSizeIdx) <> DmtxStatusEncoding).
Proof.
  unfold spec_CompleteIfDoneAscii.
  destruct (StreamInputHasNext s).
  - repeat split. intros H. discriminate H.
  - destruct (FindSymbolSize _ _ =? DmtxUndefined).
    + repeat split; [intros H; discriminate H|]. intros _. cbn. discriminate.
    + split; [|split].
      * rewrite StreamMarkComplete_scheme. apply pad_remaining_scheme.
      * intros H. discriminate H.
      * intros _. apply StreamMarkComplete_not_encoding.
Qed.

(** Over the ASCII sub-encoder the dispatch never changes the current
    scheme. *)
Lemma AsciiSubEncoders_keep_scheme (s : DmtxEncodeStream) (requestedSizeIdx : Z) :
  currentScheme (@dispatch AsciiSubEncoders s requestedSizeIdx) = currentScheme s.
Proof.
  unfold dispatch, sub_encoder, while_encoding.
  destruct (currentScheme s) eqn:Hcur;
    cbn [AsciiSubEncoders EncodeNextChunkAscii CompleteIfDoneAscii EncodeNextChunkCTX
         CompleteIfDoneCTX EncodeNextChunkEdifact CompleteIfDoneEdifact
         EncodeNextChunkBase256 CompleteIfDoneBase256];
    try (cbn; assumption).
  destruct (spec_EncodeNextChunkAscii_reads s) as (Hc & _ & _).
  destruct (status_eqb (status (spec_EncodeNextChunkAscii s)) DmtxStatusEncoding).
  - destruct (spec_CompleteIfDoneAscii_done (spec_EncodeNextChunkAscii s) requestedSizeIdx)
      as (Hd & _ & _).
    congruence.
  - congruence.
Qed.

Lemma AsciiSubEncoders_keep_recognized : sub_encoders_keep_recognized AsciiSubEncoders.
Proof.
  intros s requestedSizeIdx Hrec. rewrite AsciiSubEncoders_keep_scheme. assumption.
Qed.

Lemma input_at_none_exhausted (s : DmtxEncodeStream) :
  0 <= inputNext s -> input_at s 0 = None -> StreamInputHasNext s = false.
Proof.
  unfold input_at, StreamInputHasNext. intros Hnext.
  rewrite Z.add_0_r. destruct (Z.ltb_spec (inputNext s) 0); [lia|].
  intros Hnone. apply nth_error_None in Hnone. apply Z.ltb_ge. lia.
Qed.

(** Over the ASCII sub-encoder every chunk in scheme ASCII reads input or
    ends the encoding. *)
Lemma ascii_chunks_make_progress (requestedSizeIdx : Z) :
  chunks_make_progress SpecEmitters AsciiSubEncoders ascii_reading input_remaining
    DmtxSchemeAscii requestedSizeIdx.
Proof.
  intros s [Hscheme Hnext] Hst.
  exists (@dispatch AsciiSubEncoders s requestedSizeIdx). split.
  - rewrite EncodeNextChunk_encode_next_chunk. unfold encode_next_chunk.
    rewrite Hscheme. reflexivity.
  - unfold dispatch, sub_encoder, while_encoding. rewrite Hscheme.
    cbn [AsciiSubEncoders EncodeNextChunkAscii CompleteIfDoneAscii].
    destruct (spec_EncodeNextChunkAscii_reads s) as (Hc & Hin & Hread).
    set (c := spec_EncodeNextChunkAscii s) in *.
    destruct (spec_CompleteIfDoneAscii_done c requestedSizeIdx) as (_ & Hmore & Hdone).
    destruct (status_eqb (status c) DmtxStatusEncoding) eqn:Hstc.
    + destruct (StreamInputHasNext c) eqn:Hhas.
      * rewrite (Hmore eq_refl). intros _.
        destruct Hread as [[Hnone Hsame]|Hadv].
        -- exfalso. rewrite Hsame in Hhas.
           rewrite (input_at_none_exhausted s Hnext Hnone) in Hhas. discriminate Hhas.
        -- unfold ascii_reading, input_remaining. rewrite Hin.
           unfold StreamInputHasNext in Hhas. apply Z.ltb_lt in Hhas. rewrite Hin in Hhas.
           repeat split; [congruence|lia|lia].
      * intros Hres. exfalso. exact (Hdone eq_refl Hres).
    + intros Hres. apply status_eqb_neq in Hstc. contradiction.
Qed.

(** ** Instances of the further theorems *)

Lemma EncodeSingleScheme2_not_encoding_witness :
  run_EncodeSingleScheme2 0 (set_status DmtxStatusComplete None (StreamInit []))
                          DmtxSchemeC40 DmtxUndefined
  = Done (DmtxPass, set_status DmtxStatusComplete None (StreamInit [])).
Proof.
  refine (@EncodeSingleScheme2_not_encoding SpecEmitters AsciiSubEncoders 0
            (set_status DmtxStatusComplete None (StreamInit []))
            DmtxSchemeC40 DmtxUndefined _ _).
  - reflexivity.
  - discriminate.
Defined.

Lemma EncodeSingleScheme2_unrecognized_target_witness :
  run_EncodeSingleScheme2 1 (StreamInit [65; 66]) DmtxSchemeAutoBest DmtxUndefined
  = Done (DmtxFail, StreamMarkFatal (start_chain DmtxSchemeAutoBest (StreamInit [65; 66])) 1).
Proof.
  refine (proj1 (@EncodeSingleScheme2_unrecognized_target SpecEmitters AsciiSubEncoders 0
                   (StreamInit [65; 66]) DmtxSchemeAutoBest DmtxUndefined _ _ _));
    reflexivity.
Defined.

Lemma EncodeSingleScheme2_terminates_witness :
  exists passFail stream',
    run_EncodeSingleScheme2 4 (StreamInit [65; 66; 67]) DmtxSchemeAscii DmtxUndefined
      = Done (passFail, stream')
    /\ status stream' <> DmtxStatusEncoding.
Proof.
  refine (@EncodeSingleScheme2_terminates SpecEmitters AsciiSubEncoders
            ascii_reading input_remaining 4 (StreamInit [65; 66; 67])
            DmtxSchemeAscii DmtxUndefined (ascii_chunks_make_progress DmtxUndefined) _ _).
  - split; [reflexivity|cbn; lia].
  - vm_compute. lia.
Defined.

Lemma EncodeSingleScheme2_no_assert_witness :
  run_EncodeSingleScheme2 2 (StreamInit [65; 66; 67]) DmtxSchemeC40 DmtxUndefined = OutOfFuel
  \/ exists passFail stream',
       run_EncodeSingleScheme2 2 (StreamInit [65; 66; 67]) DmtxSchemeC40 DmtxUndefined
         = Done (passFail, stream').
Proof.
  exact (@EncodeSingleScheme2_no_assert SpecEmitters AsciiSubEncoders 2
           (StreamInit [65; 66; 67]) DmtxSchemeC40 DmtxUndefined
           AsciiSubEncoders_keep_recognized).
Defined.

(** ** The dispatcher over emitters that accept their own scheme *)



(** ** The assertion of the 253-state randomization, at any position *)

(** X15. For a byte [cwValue] and any [int] position, the value [tmp] that
    reaches the assertion of [Randomize253State2] is at most 254, so the
    upper bound of the assertion always holds; the assertion fails exactly
    when [tmp] is negative, and that requires the product 149 * cwPosition to
    have come out negative. *)
Theorem Randomize253State2_assert_fails_only_negative (cwValue cwPosition : Z) :
  0 <= cwValue <= 255 ->
  Randomize253State2_tmp cwValue cwPosition <= 254
  /\ (Randomize253State2 cwValue cwPosition = AssertFailed
      <-> Randomize253State2_tmp cwValue cwPosition < 0)
  /\ (Randomize253State2_tmp cwValue cwPosition < 0 -> int_mul 149 cwPosition < 0).
Proof.
  intros Hv.
  assert (Htmp : Randomize253State2_tmp cwValue cwPosition <= 254
                 /\ (0 <= int_mul 149 cwPosition ->
                     1 <= Randomize253State2_tmp cwValue cwPosition)).
  { unfold Randomize253State2_tmp.
    pose proof (Z.rem_bound_abs (int_mul 149 cwPosition) 253 ltac:(lia)) as Hrem.
    pose proof (Z.rem_nonneg (int_mul 149 cwPosition) 253 ltac:(lia)) as Hsign.
    unfold int_rem.
    set (rem := Z.rem (int_mul 149 cwPosition) 253) in *.
    cbv zeta.
    replace (int_add rem 1) with (rem + 1)
      by (unfold int_add; rewrite int_wrap_small; unfold int_min, int_max; lia).
    replace (int_add cwValue (rem + 1)) with (cwValue + (rem + 1))
      by (unfold int_add; rewrite int_wrap_small; unfold int_min, int_max; lia).
    destruct (Z.gtb_spec (cwValue + (rem + 1)) 254).
    - unfold int_sub. rewrite int_wrap_small by (unfold int_min, int_max; lia). lia.
    - lia. }
  destruct Htmp as [Hupper Hlower].
  split; [assumption|]. split.
  - unfold Randomize253State2.
    destruct (Z.geb_spec (Randomize253State2_tmp cwValue cwPosition) 0);
      destruct (Z.ltb_spec (Randomize253State2_tmp cwValue cwPosition) 256);
      cbn; split; intros Hfail; try discriminate Hfail; try lia; reflexivity.
  - intros Hneg. destruct (Z.lt_ge_cases (int_mul 149 cwPosition) 0); [assumption|].
    specialize (Hlower ltac:(lia)). lia.
Qed.

Lemma Randomize253State2_assert_fails_only_negative_witness :
  Randomize253State2_tmp 0 14412642 <= 254
  /\ (Randomize253State2 0 14412642 = AssertFailed
      <-> Randomize253State2_tmp 0 14412642 < 0)
  /\ (Randomize253State2_tmp 0 14412642 < 0 -> int_mul 149 14412642 < 0).
Proof.
  apply (Randomize253State2_assert_fails_only_negative 0 14412642). lia.
Defined.
